(** * The OpenTracing span adapter of ddtrace ([ddtrace/opentracer/span.py])

    A shallow embedding of [SpanLogRecord], [SpanLog] and [Span] together
    with the collaborators they call, and the properties of the span
    life cycle, of tag and log translation and of baggage handling.

    Python objects that are shared by reference (span contexts, baggage
    dictionaries, the Datadog span a [Span] delegates to, the dictionaries
    handed to [log_kv]) live in a heap and are named by their location;
    every method is a computation over that heap which returns a value,
    raises, or blocks (on a held lock). *)

From Stdlib Require Import ZArith.
From stdpp Require Import base decidable option list strings.

Open Scope Z_scope.
Open Scope string_scope.

(** ** Python values *)

Definition loc := nat.

(** A float is kept as the exact fraction it denotes: timestamps are only
    stored, tested for truth and passed on. *)
Inductive pyval :=
  | VNone
  | VBool (b : bool)
  | VInt (z : Z)
  | VFloat (num : Z) (den : positive)
  | VStr (s : string)
  | VRef (l : loc).

Global Instance pyval_eq_dec : EqDecision pyval.
Proof. solve_decision. Defined.

(** Truth value of [v] in [if v:] and [v or w]; an object without
    [__bool__] or [__len__] (an exception class, a traceback) is true. *)
Definition truthy (v : pyval) : bool :=
  match v with
  | VNone => false
  | VBool b => b
  | VInt z => negb (Z.eqb z 0)
  | VFloat n _ => negb (Z.eqb n 0)
  | VStr s => negb (String.eqb s "")
  | VRef _ => true
  end.

(** [a or b] *)
Definition py_or (a b : pyval) : pyval := if truthy a then a else b.

(** [v == s] for a string literal [s] *)
Definition eq_str (v : pyval) (s : string) : bool :=
  match v with
  | VStr t => bool_decide (t = s)
  | _ => false
  end.

(** [type(v) is int]: a [bool] is not of type [int] *)
Definition type_is_int (v : pyval) : bool :=
  match v with
  | VInt _ => true
  | _ => false
  end.

(** ** Dictionaries with string keys, in insertion order *)

Definition dict := list (string * pyval).

Fixpoint dict_get (k : string) (d : dict) : option pyval :=
  match d with
  | [] => None
  | (k', v) :: d' => if bool_decide (k' = k) then Some v else dict_get k d'
  end.

(** [d[k] = v]: an existing key keeps its place, a new one goes last *)
Fixpoint dict_set (k : string) (v : pyval) (d : dict) : dict :=
  match d with
  | [] => [(k, v)]
  | (k', v') :: d' =>
      if bool_decide (k' = k) then (k', v) :: d' else (k', v') :: dict_set k v d'
  end.

(** ** Python lists indexed by an [int] *)

Inductive exn := TypeError | IndexError | AttributeError.

(** [l[i]]: a negative index counts from the end, an index outside
    [-len(l) .. len(l)-1] raises [IndexError] *)
Definition list_getitem {A} (l : list A) (i : Z) : exn + A :=
  let n := Z.of_nat (length l) in
  let j := if Z.ltb i 0 then i + n else i in
  if Z.ltb j 0 || Z.leb n j then inl IndexError
  else match l !! Z.to_nat j with
       | Some x => inr x
       | None => inl IndexError
       end.

(** ** The objects *)

(** [class SpanLogRecord] *)
Record SpanLogRecord := {
  record : pyval;
  timestamp : pyval
}.

(** [class SpanLog] *)
Record SpanLog := {
  records : list SpanLogRecord
}.

(** Modelled from the spec: the span context ([ddtrace/opentracer/span_context.py]
    is not among the sources): a reference to the underlying tracer's
    context and a baggage mapping. [span.py] reads the two as
    [_dd_context] and [baggage]. *)
Record SpanContext := {
  _dd_context : pyval;
  baggage : loc
}.

(** What the underlying span receives, in order: the method calls of the
    adapter, and [Closed t] each time the underlying span really closes
    (with end time [t]). *)
Inductive dd_event :=
  | CallSetTag (key : string) (value : pyval)
  | CallFinish (finish_time : pyval)
  | CallSetExcInfo (exc_type exc_val exc_tb : pyval)
  | CallExit (exc_type exc_val exc_tb : pyval)
  | Closed (end_time : pyval).

(** Modelled from the spec: the underlying tracer span ([ddtrace/span.py] is
    not among the sources): structural fields for the name, the span type,
    the resource name and the error flag, generic tags keyed by string, a
    context handle, an exception-info recorder and a finish operation. *)
Record DatadogSpan := {
  dd_tracer : pyval;
  name : pyval;
  span_type : pyval;
  resource : pyval;
  error : pyval;
  meta : dict;
  context : pyval;
  exc_info : option (pyval * pyval * pyval);
  dd_finished : bool;
  trace : list dd_event
}.

(** [class Span]; [_tracer] and [_context] are the attributes set by
    [opentracing.Span.__init__], [lock] is true while the lock is held. *)
Record Span := {
  _tracer : loc;
  _context : loc;
  log : SpanLog;
  finished : bool;
  lock : bool;
  _dd_span : loc
}.

Inductive obj :=
  | ODict (d : dict)
  | OContext (c : SpanContext)
  | ODDSpan (d : DatadogSpan)
  | OSpan (s : Span)
  | OTracer (_dd_tracer : pyval)
  | OOpaque.

(** ** The heap and the computations over it *)

Record world := {
  heap : list obj;
  clock : pyval
}.

Inductive outcome (A : Type) :=
  | Return (a : A) (w : world)
  | Raise (e : exn) (w : world)
  | Blocks (w : world).
Arguments Return {A} a w.
Arguments Raise {A} e w.
Arguments Blocks {A} w.

Definition M (A : Type) : Type := world -> outcome A.

Definition ret {A} (a : A) : M A := fun w => Return a w.

Definition bind {A B} (m : M A) (f : A -> M B) : M B :=
  fun w =>
    match m w with
    | Return a w' => f a w'
    | Raise e w' => Raise e w'
    | Blocks w' => Blocks w'
    end.

Definition raise {A} (e : exn) : M A := fun w => Raise e w.

Notation "x <- m ;; k" := (bind m (fun x => k))
  (at level 100, m at next level, right associativity, k at level 200).
Notation "m ;;; k" := (bind m (fun _ => k))
  (at level 100, right associativity, k at level 200).

Definition set_heap (h : list obj) (w : world) : world :=
  {| heap := h; clock := clock w |}.

(** a new object gets the next free location *)
Definition alloc (o : obj) : M loc :=
  fun w => Return (length (heap w)) (set_heap (heap w ++ [o]) w).

Definition load (l : loc) : M obj :=
  fun w =>
    match heap w !! l with
    | Some o => Return o w
    | None => Raise AttributeError w
    end.

Definition store (l : loc) (o : obj) : M unit :=
  fun w => Return tt (set_heap (<[l := o]> (heap w)) w).

(** [time.time()]: the reading of the world's clock. A reading does not
    advance the clock, so nothing is to be concluded from how the readings of
    two calls compare. *)
Definition time_time : M pyval := fun w => Return (clock w) w.

Definition load_dict (l : loc) : M dict :=
  o <- load l ;; match o with ODict d => ret d | _ => raise AttributeError end.

Definition load_context (l : loc) : M SpanContext :=
  o <- load l ;; match o with OContext c => ret c | _ => raise AttributeError end.

Definition load_ddspan (l : loc) : M DatadogSpan :=
  o <- load l ;; match o with ODDSpan d => ret d | _ => raise AttributeError end.

Definition load_span (l : loc) : M Span :=
  o <- load l ;; match o with OSpan s => ret s | _ => raise AttributeError end.

Definition load_tracer (l : loc) : M pyval :=
  o <- load l ;; match o with OTracer t => ret t | _ => raise AttributeError end.

(** attribute writes *)
Definition update_ddspan (l : loc) (f : DatadogSpan -> DatadogSpan) : M unit :=
  d <- load_ddspan l ;; store l (ODDSpan (f d)).

Definition update_span (l : loc) (f : Span -> Span) : M unit :=
  s <- load_span l ;; store l (OSpan (f s)).

(** ** [SpanLogRecord] and [SpanLog] *)

(** [SpanLogRecord.__init__]; [time.time()] is read only when [timestamp]
    is false ([None], or zero). *)
Definition SpanLogRecord_init (key_values timestamp : pyval) : M SpanLogRecord :=
  ts <- (if truthy timestamp then ret timestamp else time_time) ;;
  ret {| record := key_values; timestamp := ts |}.

(** [SpanLog.__init__] *)
Definition SpanLog_init : SpanLog := {| records := [] |}.

(** [SpanLog.add_record] *)
Definition SpanLog_add_record (self : SpanLog) (key_values timestamp : pyval)
  : M SpanLog :=
  r <- SpanLogRecord_init key_values timestamp ;;
  ret {| records := records self ++ [r] |}.

(** [SpanLog.__len__] *)
Definition SpanLog_len (self : SpanLog) : nat := length (records self).

(** [SpanLog.__getitem__] *)
Definition SpanLog_getitem (self : SpanLog) (key : pyval) : exn + SpanLogRecord :=
  match key with
  | VInt i => list_getitem (records self) i
  | _ => inl TypeError
  end.

(** ** [SpanContext] *)

(** Modelled from the spec: the constructor of [SpanContext]
    ([span_context.py] is missing): the context holds the underlying context
    it is given, or a fresh one, and a copy of the baggage it is given, or an
    empty baggage. *)
Definition SpanContext_init (ddcontext : option pyval) (baggage : option loc)
  : M loc :=
  dc <- match ddcontext with
        | Some d => ret d
        | None => l <- alloc OOpaque ;; ret (VRef l)
        end ;;
  b <- match baggage with
       | Some b => d <- load_dict b ;; alloc (ODict d)
       | None => alloc (ODict [])
       end ;;
  alloc (OContext {| _dd_context := dc; baggage := b |}).

(** Modelled from the spec: [SpanContext.with_baggage_item] ([span_context.py]
    is missing): a new context with the same underlying reference and the
    receiver's baggage with [key] set to [value]; the receiver is left as it
    is. *)
Definition SpanContext_with_baggage_item (self : loc) (key : string) (value : pyval)
  : M loc :=
  c <- load_context self ;;
  d <- load_dict (baggage c) ;;
  b <- alloc (ODict (dict_set key value d)) ;;
  alloc (OContext {| _dd_context := _dd_context c; baggage := b |}).

(** Modelled from the spec: [SpanContext.get_baggage_item] ([span_context.py]
    is missing): the value of [key], or the not-found sentinel [None]. *)
Definition SpanContext_get_baggage_item (self : loc) (key : string) : M pyval :=
  c <- load_context self ;;
  d <- load_dict (baggage c) ;;
  ret (default VNone (dict_get key d)).

(** ** The underlying span *)

Definition set_name (v : pyval) (d : DatadogSpan) : DatadogSpan :=
  {| dd_tracer := dd_tracer d; name := v; span_type := span_type d;
     resource := resource d; error := error d; meta := meta d;
     context := context d; exc_info := exc_info d;
     dd_finished := dd_finished d; trace := trace d |}.

Definition set_span_type (v : pyval) (d : DatadogSpan) : DatadogSpan :=
  {| dd_tracer := dd_tracer d; name := name d; span_type := v;
     resource := resource d; error := error d; meta := meta d;
     context := context d; exc_info := exc_info d;
     dd_finished := dd_finished d; trace := trace d |}.

Definition set_resource (v : pyval) (d : DatadogSpan) : DatadogSpan :=
  {| dd_tracer := dd_tracer d; name := name d; span_type := span_type d;
     resource := v; error := error d; meta := meta d;
     context := context d; exc_info := exc_info d;
     dd_finished := dd_finished d; trace := trace d |}.

Definition set_error (v : pyval) (d : DatadogSpan) : DatadogSpan :=
  {| dd_tracer := dd_tracer d; name := name d; span_type := span_type d;
     resource := resource d; error := v; meta := meta d;
     context := context d; exc_info := exc_info d;
     dd_finished := dd_finished d; trace := trace d |}.

Definition set_meta (m : dict) (d : DatadogSpan) : DatadogSpan :=
  {| dd_tracer := dd_tracer d; name := name d; span_type := span_type d;
     resource := resource d; error := error d; meta := m;
     context := context d; exc_info := exc_info d;
     dd_finished := dd_finished d; trace := trace d |}.

Definition set_exc_info (e : option (pyval * pyval * pyval)) (d : DatadogSpan)
  : DatadogSpan :=
  {| dd_tracer := dd_tracer d; name := name d; span_type := span_type d;
     resource := resource d; error := error d; meta := meta d;
     context := context d; exc_info := e;
     dd_finished := dd_finished d; trace := trace d |}.

Definition set_dd_finished (b : bool) (d : DatadogSpan) : DatadogSpan :=
  {| dd_tracer := dd_tracer d; name := name d; span_type := span_type d;
     resource := resource d; error := error d; meta := meta d;
     context := context d; exc_info := exc_info d;
     dd_finished := b; trace := trace d |}.

Definition add_event (e : dd_event) (d : DatadogSpan) : DatadogSpan :=
  {| dd_tracer := dd_tracer d; name := name d; span_type := span_type d;
     resource := resource d; error := error d; meta := meta d;
     context := context d; exc_info := exc_info d;
     dd_finished := dd_finished d; trace := trace d ++ [e] |}.

(** Modelled from the spec: the constructor of the underlying span
    ([ddtrace/span.py] is missing), given the tracer handle, the operation
    name and the context. *)
Definition DatadogSpan_init (tracer operation_name ctx : pyval) : M loc :=
  alloc (ODDSpan {| dd_tracer := tracer; name := operation_name;
                    span_type := VNone; resource := VNone; error := VInt 0;
                    meta := []; context := ctx; exc_info := None;
                    dd_finished := false; trace := [] |}).

(** Modelled from the spec: the generic tag setter of the underlying span
    ([ddtrace/span.py] is missing). *)
Definition tag_set (key : string) (value : pyval) (d : DatadogSpan) : DatadogSpan :=
  set_meta (dict_set key value (meta d)) (add_event (CallSetTag key value) d).

Definition DatadogSpan_set_tag (self : loc) (key : string) (value : pyval) : M unit :=
  update_ddspan self (tag_set key value).

(** Modelled from the spec: the generic tag getter of the underlying span
    ([ddtrace/span.py] is missing), [None] when the tag is not set. *)
Definition DatadogSpan_get_tag (self : loc) (key : string) : M pyval :=
  d <- load_ddspan self ;; ret (default VNone (dict_get key (meta d))).

(** Modelled from the spec: what finishing does to the underlying span
    ([ddtrace/span.py] is missing). It is idempotent, as [Span.__exit__]
    notes: the first finish closes the span, with the explicit end time when
    one is given and the clock's reading [now] otherwise; a later one does
    nothing. *)
Definition closed (now finish_time : pyval) (d : DatadogSpan) : DatadogSpan :=
  if dd_finished d then d
  else
    let t := match finish_time with VNone => now | t => t end in
    set_dd_finished true (add_event (Closed t) d).

(** Modelled from the spec: the finish operation of the underlying span
    ([ddtrace/span.py] is missing). *)
Definition DatadogSpan_finish (self : loc) (finish_time : pyval) : M unit :=
  now <- time_time ;;
  update_ddspan self
    (fun d => closed now finish_time (add_event (CallFinish finish_time) d)).

(** Modelled from the spec: the exception-info recorder of the underlying
    span ([ddtrace/span.py] is missing). *)
Definition exc_recorded (exc_type exc_val exc_tb : pyval) (d : DatadogSpan)
  : DatadogSpan :=
  set_exc_info (Some (exc_type, exc_val, exc_tb))
    (add_event (CallSetExcInfo exc_type exc_val exc_tb) d).

Definition DatadogSpan_set_exc_info (self : loc) (exc_type exc_val exc_tb : pyval)
  : M unit :=
  update_ddspan self (exc_recorded exc_type exc_val exc_tb).

(** Modelled from the spec: [__exit__] of the underlying span
    ([ddtrace/span.py] is missing); it finishes the underlying span, as the
    note in [Span.__exit__] says. *)
Definition DatadogSpan_exit (self : loc) (exc_type exc_val exc_tb : pyval) : M unit :=
  now <- time_time ;;
  update_ddspan self
    (fun d => closed now VNone (add_event (CallExit exc_type exc_val exc_tb) d)).

(** ** [Span] *)

Definition set_context (c : loc) (s : Span) : Span :=
  {| _tracer := _tracer s; _context := c; log := log s;
     finished := finished s; lock := lock s; _dd_span := _dd_span s |}.

Definition set_log (l : SpanLog) (s : Span) : Span :=
  {| _tracer := _tracer s; _context := _context s; log := l;
     finished := finished s; lock := lock s; _dd_span := _dd_span s |}.

Definition set_finished (b : bool) (s : Span) : Span :=
  {| _tracer := _tracer s; _context := _context s; log := log s;
     finished := b; lock := lock s; _dd_span := _dd_span s |}.

Definition set_lock (b : bool) (s : Span) : Span :=
  {| _tracer := _tracer s; _context := _context s; log := log s;
     finished := finished s; lock := b; _dd_span := _dd_span s |}.

Definition set_dd_span (d : loc) (s : Span) : Span :=
  {| _tracer := _tracer s; _context := _context s; log := log s;
     finished := finished s; lock := lock s; _dd_span := d |}.

(** The reserved keys of [ddtrace/opentracer/tags.py] ([OTTags]) and the tag
    names of [ddtrace/ext/errors.py]; neither file is among the sources, so
    the adapter is parameterised by them. *)
Record OTTagsT := {
  SPAN_TYPE : string;
  HTTP_URL : string;
  DB_STATEMENT : string
}.

Record errorsT := {
  ERROR_TYPE : string;
  ERROR_MSG : string;
  ERROR_STACK : string
}.

(** [threading.Lock.acquire]: blocks while the lock is held *)
Definition Lock_acquire (self : loc) : M unit :=
  s <- load_span self ;;
  if lock s then (fun w => Blocks w) else store self (OSpan (set_lock true s)).

(** [threading.Lock.release] *)
Definition Lock_release (self : loc) : M unit :=
  update_span self (set_lock false).

Section Adapter.

Variable OTTags : OTTagsT.
Variable errors : errorsT.

(** [Span.__init__] *)
Definition Span_init (tracer : loc) (context : option loc) (operation_name : pyval)
  : M loc :=
  context <- match context with
             | Some c =>
                 pc <- load_context c ;;
                 SpanContext_init (Some (_dd_context pc)) (Some (baggage pc))
             | None => SpanContext_init None None
             end ;;
  t <- load_tracer tracer ;;
  c <- load_context context ;;
  dd <- DatadogSpan_init t operation_name (_dd_context c) ;;
  alloc (OSpan {| _tracer := tracer; _context := context; log := SpanLog_init;
                  finished := false; lock := false; _dd_span := dd |}).

(** the [context] property of [opentracing.Span] *)
Definition Span_context (self : loc) : M loc :=
  s <- load_span self ;; ret (_context s).

(** [Span.finish] *)
Definition Span_finish (self : loc) (finish_time : pyval) : M unit :=
  s <- load_span self ;;
  if finished s then ret tt
  else
    DatadogSpan_finish (_dd_span s) finish_time ;;;
    update_span self (set_finished true).

(** [Span.set_tag] *)
Definition Span_set_tag (self : loc) (key : string) (value : pyval) : M unit :=
  s <- load_span self ;;
  if bool_decide (key = SPAN_TYPE OTTags) then
    update_ddspan (_dd_span s) (set_span_type value)
  else if bool_decide (key = HTTP_URL OTTags) || bool_decide (key = DB_STATEMENT OTTags) then
    update_ddspan (_dd_span s) (set_resource value)
  else
    DatadogSpan_set_tag (_dd_span s) key value.

(** [Span.set_baggage_item] *)
Definition Span_set_baggage_item (self : loc) (key : string) (value : pyval)
  : M pyval :=
  ctx <- Span_context self ;;
  new_ctx <- SpanContext_with_baggage_item ctx key value ;;
  Span_set_tag self key value ;;;
  Lock_acquire self ;;;
  update_span self (set_context new_ctx) ;;;
  Lock_release self ;;;
  ret (VRef self).

(** [Span.get_baggage_item] *)
Definition Span_get_baggage_item (self : loc) (key : string) : M pyval :=
  ctx <- Span_context self ;;
  SpanContext_get_baggage_item ctx key.

(** [Span.set_operation_name] *)
Definition Span_set_operation_name (self : loc) (operation_name : pyval) : M unit :=
  s <- load_span self ;;
  update_ddspan (_dd_span s) (set_name operation_name).

(** the body of the loop of [Span.log_kv], for one item *)
Definition log_kv_item (self : loc) (key : string) (val : pyval) : M unit :=
  if bool_decide (key = "event") && eq_str val "error" then
    s <- load_span self ;;
    update_ddspan (_dd_span s) (set_error (VInt 1)) ;;;
    Span_set_tag self "error" (VInt 1)
  else if bool_decide (key = "error") || bool_decide (key = "error.object") then
    Span_set_tag self (ERROR_TYPE errors) val
  else if bool_decide (key = "message") then
    Span_set_tag self (ERROR_MSG errors) val
  else if bool_decide (key = "stack") then
    Span_set_tag self (ERROR_STACK errors) val
  else
    ret tt.

(** [for key, val in items: ...] *)
Fixpoint log_kv_items (self : loc) (items : dict) : M unit :=
  match items with
  | [] => ret tt
  | (key, val) :: rest => log_kv_item self key val ;;; log_kv_items self rest
  end.

(** [Span.log_kv]; [key_values] is the caller's dictionary, which the new
    record refers to. *)
Definition Span_log_kv (self : loc) (key_values : loc) (timestamp : pyval)
  : M pyval :=
  s <- load_span self ;;
  lg <- SpanLog_add_record (log s) (VRef key_values) timestamp ;;
  update_span self (set_log lg) ;;;
  items <- load_dict key_values ;;
  log_kv_items self items ;;;
  ret (VRef self).

(** [Span._get_tag] *)
Definition Span_get_tag (self : loc) (key : string) : M pyval :=
  s <- load_span self ;;
  DatadogSpan_get_tag (_dd_span s) key.

(** [Span.__enter__] *)
Definition Span_enter (self : loc) : M pyval := ret (VRef self).

(** [Span.__exit__] *)
Definition Span_exit (self : loc) (exc_type exc_val exc_tb : pyval) : M unit :=
  s <- load_span self ;;
  (if truthy exc_type
   then DatadogSpan_set_exc_info (_dd_span s) exc_type exc_val exc_tb
   else ret tt) ;;;
  DatadogSpan_exit (_dd_span s) exc_type exc_val exc_tb ;;;
  Span_finish self VNone.

(** [for key, val in items: self.set_tag(key, val)] *)
Fixpoint set_tags (self : loc) (items : dict) : M unit :=
  match items with
  | [] => ret tt
  | (key, val) :: rest => Span_set_tag self key val ;;; set_tags self rest
  end.

(** [Span._add_dd_span] *)
Definition Span_add_dd_span (self : loc) (ddspan : loc) : M unit :=
  update_span self (set_dd_span ddspan) ;;;
  d <- load_ddspan ddspan ;;
  ctx <- Span_context self ;;
  c <- load_context ctx ;;
  store ctx (OContext {| _dd_context := context d; baggage := baggage c |}) ;;;
  items <- load_dict (baggage c) ;;
  set_tags self items.

(** the [_dd_context] property of [Span] *)
Definition Span_dd_context (self : loc) : M pyval :=
  s <- load_span self ;;
  d <- load_ddspan (_dd_span s) ;;
  ret (context d).

(** [span.finish(t)] for each [t] of [finish_times], in order *)
Fixpoint finish_each (self : loc) (finish_times : list pyval) : M unit :=
  match finish_times with
  | [] => ret tt
  | t :: rest => Span_finish self t ;;; finish_each self rest
  end.

End Adapter.

(** ** Worlds after a write and after an allocation *)

Definition upd (l : loc) (o : obj) (w : world) : world :=
  set_heap (<[l := o]> (heap w)) w.

Definition ext (o : obj) (w : world) : world :=
  set_heap (heap w ++ [o]) w.

(** ** What the underlying span has received *)

Definition is_finish_call (e : dd_event) : bool :=
  match e with CallFinish _ => true | _ => false end.

Definition is_closed (e : dd_event) : bool :=
  match e with Closed _ => true | _ => false end.

(** how often [finish] was called on the underlying span *)
Definition finish_calls (d : DatadogSpan) : nat :=
  length (List.filter is_finish_call (trace d)).

(** how often the underlying span closed *)
Definition closings (d : DatadogSpan) : nat :=
  length (List.filter is_closed (trace d)).

(** ** [Span.set_tag] seen from the underlying span *)

Definition reserved (OTTags : OTTagsT) (key : string) : Prop :=
  key = SPAN_TYPE OTTags \/ key = HTTP_URL OTTags \/ key = DB_STATEMENT OTTags.

Definition routed (OTTags : OTTagsT) (key : string) (value : pyval) (d : DatadogSpan)
  : DatadogSpan :=
  if bool_decide (key = SPAN_TYPE OTTags) then set_span_type value d
  else if bool_decide (key = HTTP_URL OTTags) || bool_decide (key = DB_STATEMENT OTTags)
       then set_resource value d
       else tag_set key value d.

(** ** Successive appends to a log *)

(** [log.add_record(kv, ts)] for each [(kv, ts)] of [entries], in order *)
Fixpoint add_records (self : SpanLog) (entries : list (pyval * pyval)) : M SpanLog :=
  match entries with
  | [] => ret self
  | (key_values, timestamp) :: rest =>
      lg <- SpanLog_add_record self key_values timestamp ;;
      add_records lg rest
  end.

(** the record that [SpanLogRecord(key_values, timestamp)] builds when the
    clock reads [now] *)
Definition record_of (now : pyval) (entry : pyval * pyval) : SpanLogRecord :=
  {| record := entry.1; timestamp := py_or entry.2 now |}.

(** ** [Span.log_kv] seen from the underlying span *)

(** what one item of the mapping does to the underlying span *)
Definition item_effect (OTTags : OTTagsT) (errors : errorsT) (key : string)
    (val : pyval) (d : DatadogSpan) : DatadogSpan :=
  if bool_decide (key = "event") && eq_str val "error" then
    routed OTTags "error" (VInt 1) (set_error (VInt 1) d)
  else if bool_decide (key = "error") || bool_decide (key = "error.object") then
    routed OTTags (ERROR_TYPE errors) val d
  else if bool_decide (key = "message") then
    routed OTTags (ERROR_MSG errors) val d
  else if bool_decide (key = "stack") then
    routed OTTags (ERROR_STACK errors) val d
  else d.

Definition items_effect (OTTags : OTTagsT) (errors : errorsT) (items : dict)
    (d : DatadogSpan) : DatadogSpan :=
  fold_left (fun d kv => item_effect OTTags errors kv.1 kv.2 d) items d.

(** The translation of log fields as the specification words it: each item
    falls under one rule. *)
Inductive log_rule :=
  | MarkError      (* "event" with value "error" *)
  | ErrorType      (* "error" or "error.object" *)
  | ErrorMessage   (* "message" *)
  | ErrorStack     (* "stack" *)
  | NoRule.        (* any other item *)

Definition rule_of (key : string) (val : pyval) : log_rule :=
  if bool_decide (key = "event" /\ val = VStr "error") then MarkError
  else if bool_decide (key = "error" \/ key = "error.object") then ErrorType
  else if bool_decide (key = "message") then ErrorMessage
  else if bool_decide (key = "stack") then ErrorStack
  else NoRule.

(** [MarkError] sets the error flag and a generic tag "error" to 1, the
    next three set the error-type, error-message and error-stack tag to the
    value, [NoRule] does nothing. *)
Definition apply_rule (errors : errorsT) (r : log_rule) (val : pyval)
    (d : DatadogSpan) : DatadogSpan :=
  match r with
  | MarkError => tag_set "error" (VInt 1) (set_error (VInt 1) d)
  | ErrorType => tag_set (ERROR_TYPE errors) val d
  | ErrorMessage => tag_set (ERROR_MSG errors) val d
  | ErrorStack => tag_set (ERROR_STACK errors) val d
  | NoRule => d
  end.

Definition translated (errors : errorsT) (items : dict) (d : DatadogSpan)
  : DatadogSpan :=
  fold_left (fun d kv => apply_rule errors (rule_of kv.1 kv.2) kv.2 d) items d.

(** ** [Span.set_baggage_item] seen from the heap *)

(** the world after [span.set_baggage_item(key, value)]: a new baggage and a
    new context are allocated, the pair goes through [set_tag], and the span
    refers to the new context *)
Definition baggage_set (OTTags : OTTagsT) (w : world) (self : loc) (s : Span)
    (d : DatadogSpan) (c : SpanContext) (b : dict) (key : string) (value : pyval)
  : world :=
  upd self (OSpan (set_context (S (length (heap w))) s))
    (upd (_dd_span s) (ODDSpan (routed OTTags key value d))
       (ext (OContext {| _dd_context := _dd_context c; baggage := length (heap w) |})
          (ext (ODict (dict_set key value b)) w))).

(** ** [Span.__init__] with a parent context, seen from the heap *)

Definition new_ddspan (t operation_name ctx : pyval) : DatadogSpan :=
  {| dd_tracer := t; name := operation_name; span_type := VNone;
     resource := VNone; error := VInt 0; meta := []; context := ctx;
     exc_info := None; dd_finished := false; trace := [] |}.

Definition new_span (tracer ctx dd : loc) : Span :=
  {| _tracer := tracer; _context := ctx; log := SpanLog_init;
     finished := false; lock := false; _dd_span := dd |}.

(** the world after [Span(tracer, parent, operation_name)], where [t] is the
    tracer's [_dd_tracer] and the parent context is [pc] with baggage [b]:
    with [n] the next free location, the copy of the baggage is at [n], the
    child's context at [n+1], its underlying span at [n+2], the child at
    [n+3] *)
Definition child_made (w : world) (tracer : loc) (t : pyval) (pc : SpanContext)
    (b : dict) (operation_name : pyval) : world :=
  let n := length (heap w) in
  ext (OSpan (new_span tracer (S n) (S (S n))))
    (ext (ODDSpan (new_ddspan t operation_name (_dd_context pc)))
       (ext (OContext {| _dd_context := _dd_context pc; baggage := n |})
          (ext (ODict b) w))).

(** ** What is recorded for a span *)

(** the underlying span, the log, and the baggage of the current context *)
Definition recorded_state (w : world) (self : loc)
  : option (DatadogSpan * SpanLog * dict) :=
  match heap w !! self with
  | Some (OSpan s) =>
      match heap w !! _dd_span s, heap w !! _context s with
      | Some (ODDSpan d), Some (OContext c) =>
          match heap w !! baggage c with
          | Some (ODict b) => Some (d, log s, b)
          | _ => None
          end
      | _, _ => None
      end
  | _ => None
  end.

(** ** Threads that call [set_baggage_item] *)

(** Where a thread stands in [Span.set_baggage_item]; once it has built
    [new_ctx] it carries it as a local variable. *)
Inductive pc :=
  | AtRead                      (* before [new_ctx = self.context.with_baggage_item(..)] *)
  | AtTag (new_ctx : loc)       (* before [self.set_tag(key, value)] *)
  | AtAcquire (new_ctx : loc)   (* before entering [with self.lock] *)
  | AtSwap (new_ctx : loc)      (* before [self._context = new_ctx] *)
  | AtRelease                   (* before leaving [with self.lock] *)
  | AtReturn.                   (* returned *)

Record thread := {
  th_self : loc;
  th_key : string;
  th_value : pyval;
  th_pc : pc
}.

Definition at_pc (p : pc) (t : thread) : thread :=
  {| th_self := th_self t; th_key := th_key t; th_value := th_value t; th_pc := p |}.

Section Threads.

Variable OTTags : OTTagsT.

(** one statement of [set_baggage_item], run by thread [t] *)
Definition thread_step (t : thread) : M thread :=
  match th_pc t with
  | AtRead =>
      ctx <- Span_context (th_self t) ;;
      new_ctx <- SpanContext_with_baggage_item ctx (th_key t) (th_value t) ;;
      ret (at_pc (AtTag new_ctx) t)
  | AtTag new_ctx =>
      Span_set_tag OTTags (th_self t) (th_key t) (th_value t) ;;;
      ret (at_pc (AtAcquire new_ctx) t)
  | AtAcquire new_ctx =>
      Lock_acquire (th_self t) ;;;
      ret (at_pc (AtSwap new_ctx) t)
  | AtSwap new_ctx =>
      update_span (th_self t) (set_context new_ctx) ;;;
      ret (at_pc AtRelease t)
  | AtRelease =>
      Lock_release (th_self t) ;;;
      ret (at_pc AtReturn t)
  | AtReturn => ret t
  end.

(** the threads take turns as [schedule] says, one statement per turn *)
Fixpoint run (schedule : list nat) (threads : list thread) : M (list thread) :=
  match schedule with
  | [] => ret threads
  | i :: rest =>
      match threads !! i with
      | Some t => t' <- thread_step t ;; run rest (<[i := t']> threads)
      | None => run rest threads
      end
  end.

End Threads.

(** ** A concrete instance *)

(** Modelled from the spec: the reserved keys ([tags.py] is missing), with the
    names the spec's examples use, and names for the error tags ([errors.py]
    is missing). *)
Definition tags_example : OTTagsT :=
  {| SPAN_TYPE := "span.kind"; HTTP_URL := "http.url"; DB_STATEMENT := "db.statement" |}.

Definition errors_example : errorsT :=
  {| ERROR_TYPE := "error.type"; ERROR_MSG := "error.msg"; ERROR_STACK := "error.stack" |}.

(** the world a computation leaves *)
Definition after {A} (m : M A) (w : world) : world :=
  match m w with
  | Return _ w' => w'
  | Raise _ w' => w'
  | Blocks w' => w'
  end.

(** a tracer at location 0, and the clock at 1.5 *)
Definition world_tracer : world :=
  {| heap := [OTracer (VStr "dd-tracer")]; clock := VFloat 3 2 |}.

(** ... and a span made by [Span(tracer, None, "op")]: the span is at location
    5, its underlying span at 4, its context at 3 with the baggage at 2 *)
Definition world_span : world :=
  Eval vm_compute in after (Span_init 0%nat None (VStr "op")) world_tracer.

Definition span_example : Span :=
  {| _tracer := 0%nat; _context := 3%nat; log := SpanLog_init;
     finished := false; lock := false; _dd_span := 4%nat |}.

Definition ddspan_example : DatadogSpan :=
  {| dd_tracer := VStr "dd-tracer"; name := VStr "op"; span_type := VNone;
     resource := VNone; error := VInt 0; meta := []; context := VRef 1%nat;
     exc_info := None; dd_finished := false; trace := [] |}.

(** two writers of the same span, with distinct keys *)
Definition writer_a : thread :=
  {| th_self := 5%nat; th_key := "a"; th_value := VInt 1; th_pc := AtRead |}.

Definition writer_b : thread :=
  {| th_self := 5%nat; th_key := "b"; th_value := VInt 2; th_pc := AtRead |}.

(** both read the context, then each completes its call *)
Definition schedule_lost_update : list nat :=
  [0; 1; 0; 0; 0; 0; 1; 1; 1; 1]%nat.

(** [world_span] after [span.finish()] *)
Definition world_finished : world :=
  Eval vm_compute in after (Span_finish 5%nat VNone) world_span.

Definition span_finished_example : Span := set_finished true span_example.

Definition ddspan_finished_example : DatadogSpan :=
  {| dd_tracer := VStr "dd-tracer"; name := VStr "op"; span_type := VNone;
     resource := VNone; error := VInt 0; meta := []; context := VRef 1%nat;
     exc_info := None; dd_finished := true;
     trace := [CallFinish VNone; Closed (VFloat 3 2)] |}.

Definition context_example : SpanContext :=
  {| _dd_context := VRef 1%nat; baggage := 2%nat |}.

Definition items_example : dict :=
  [("event", VStr "error"); ("message", VStr "oops"); ("custom", VInt 42)].

(** [world_span] and [world_finished] with the caller's dictionary
    [items_example] at location 6 *)
Definition world_span_items : world :=
  Eval vm_compute in after (alloc (ODict items_example)) world_span.

Definition world_finished_items : world :=
  Eval vm_compute in after (alloc (ODict items_example)) world_finished.

(** [world_span] after [span.set_baggage_item("x", "y")]: the span's context
    is now at location 7, with the baggage at 6 *)
Definition world_parent : world :=
  Eval vm_compute in
    after (Span_set_baggage_item tags_example 5%nat "x" (VStr "y")) world_span.

Definition parent_context_example : SpanContext :=
  {| _dd_context := VRef 1%nat; baggage := 6%nat |}.

(** [world_span] after [span.set_baggage_item("span.kind", "client")] *)
Definition world_kind_baggage : world :=
  Eval vm_compute in
    after (Span_set_baggage_item tags_example 5%nat "span.kind" (VStr "client"))
      world_span.

(** [world_span] after the two writers ran as [schedule_lost_update] says *)
Definition world_lost_update : world :=
  Eval vm_compute in
    after (run tags_example schedule_lost_update [writer_a; writer_b]) world_span.

(** [world_span] with an exception class, an exception and a traceback at
    locations 6, 7 and 8 *)
Definition world_raised : world :=
  Eval vm_compute in
    after (alloc OOpaque ;;; alloc OOpaque ;;; alloc OOpaque) world_span.

(** ** Sequences of calls, and what they leave *)

(** a span with its underlying span, its context and its baggage *)
Definition span_at (w : world) (self : loc) (s : Span) (d : DatadogSpan)
    (c : SpanContext) (b : dict) : Prop :=
  heap w !! self = Some (OSpan s) /\
  heap w !! _dd_span s = Some (ODDSpan d) /\
  heap w !! _context s = Some (OContext c) /\
  heap w !! baggage c = Some (ODict b).

(** the value of the last pair of [kvs] whose key is [k] *)
Definition last_set (k : string) (kvs : dict) : option pyval :=
  fold_left (fun acc kv => if bool_decide (kv.1 = k) then Some kv.2 else acc) kvs None.

(** the baggage after [d[k] = v] for each [(k, v)] of [kvs], in order *)
Definition dict_set_each (kvs : dict) (b : dict) : dict :=
  fold_left (fun b kv => dict_set kv.1 kv.2 b) kvs b.

Global Instance log_rule_eq_dec : EqDecision log_rule.
Proof. solve_decision. Defined.

(** whether the mapping has the item "event": "error" *)
Definition has_error_event (items : dict) : bool :=
  existsb (fun kv => bool_decide (kv.1 = "event") && eq_str kv.2 "error") items.

(** the [set_tag] calls the underlying span receives for one item under its
    rule, and for the items of a mapping, in order *)
Definition rule_calls (errors : errorsT) (r : log_rule) (val : pyval)
  : list dd_event :=
  match r with
  | MarkError => [CallSetTag "error" (VInt 1)]
  | ErrorType => [CallSetTag (ERROR_TYPE errors) val]
  | ErrorMessage => [CallSetTag (ERROR_MSG errors) val]
  | ErrorStack => [CallSetTag (ERROR_STACK errors) val]
  | NoRule => []
  end.

Definition log_calls (errors : errorsT) (items : dict) : list dd_event :=
  flat_map (fun kv => rule_calls errors (rule_of kv.1 kv.2) kv.2) items.

(** the value of the last item of the mapping whose key is one of [keys] *)
Definition last_of (keys : list string) (items : dict) : option pyval :=
  fold_left
    (fun acc kv => if bool_decide (kv.1 ∈ keys) then Some kv.2 else acc) items None.

(** the underlying span after [set_tag(key, val)] for each item, in order *)
Definition replayed (OTTags : OTTagsT) (items : dict) (d : DatadogSpan)
  : DatadogSpan :=
  fold_left (fun d kv => routed OTTags kv.1 kv.2 d) items d.

Section Sequences.

Variable OTTags : OTTagsT.
Variable errors : errorsT.

(** [span.log_kv(kv, ts)] for each [(kv, ts)] of [entries], in order *)
Fixpoint log_kv_each (self : loc) (entries : list (loc * pyval)) : M unit :=
  match entries with
  | [] => ret tt
  | (key_values, timestamp) :: rest =>
      Span_log_kv OTTags errors self key_values timestamp ;;;
      log_kv_each self rest
  end.

(** [span.set_baggage_item(k, v)] for each [(k, v)] of [kvs], in order *)
Fixpoint set_baggage_each (self : loc) (kvs : dict) : M unit :=
  match kvs with
  | [] => ret tt
  | (key, value) :: rest =>
      Span_set_baggage_item OTTags self key value ;;;
      set_baggage_each self rest
  end.

End Sequences.

(** the world after [span._add_dd_span(ddspan)], where [dn] is the span
    [ddspan] refers to: the span refers to [ddspan], its context has
    [ddspan]'s context, in place, and the baggage went through [set_tag] *)
Definition rebound (OTTags : OTTagsT) (w : world) (self : loc) (s : Span)
    (c : SpanContext) (b : dict) (ddspan : loc) (dn : DatadogSpan) : world :=
  upd ddspan (ODDSpan (replayed OTTags b dn))
    (upd (_context s) (OContext {| _dd_context := context dn; baggage := baggage c |})
       (upd self (OSpan (set_dd_span ddspan s)) w)).

(** the world after [Span(tracer, None, operation_name)], where [t] is the
    tracer's [_dd_tracer]: with [n] the next free location, the new
    underlying context is at [n], the empty baggage at [n+1], the context at
    [n+2], the underlying span at [n+3], the span at [n+4] *)
Definition root_made (w : world) (tracer : loc) (t : pyval) (operation_name : pyval)
  : world :=
  let n := length (heap w) in
  ext (OSpan (new_span tracer (S (S n)) (S (S (S n)))))
    (ext (ODDSpan (new_ddspan t operation_name (VRef n)))
       (ext (OContext {| _dd_context := VRef n; baggage := S n |})
          (ext (ODict []) (ext OOpaque w)))).

(** ** More concrete worlds *)

(** [world_parent] with a second underlying span at location 8, made for the
    same tracer with another context handle *)
Definition ddspan_other : DatadogSpan :=
  new_ddspan (VStr "dd-tracer") (VStr "other") (VStr "other-context").

Definition world_other : world :=
  Eval vm_compute in after (alloc (ODDSpan ddspan_other)) world_parent.

Definition span_parent_example : Span := set_context 7%nat span_example.

Definition ddspan_parent_example : DatadogSpan :=
  tag_set "x" (VStr "y") ddspan_example.

(** [world_span_items] with an opaque object at location 7 *)
Definition world_span_opaque : world :=
  Eval vm_compute in after (alloc OOpaque) world_span_items.


(** [world_finished] with an exception class, an exception and a traceback at
    locations 6, 7 and 8 *)
Definition world_finished_raised : world :=
  Eval vm_compute in
    after (alloc OOpaque ;;; alloc OOpaque ;;; alloc OOpaque) world_finished.

(** * Properties *)

(** ** Dictionaries *)

Lemma dict_get_set (k k' : string) (v : pyval) (d : dict) :
  dict_get k' (dict_set k v d) = if bool_decide (k = k') then Some v else dict_get k' d.
Proof.
  induction d as [|[k0 v0] d IH]; simpl.
  - repeat case_bool_decide; congruence.
  - repeat (case_bool_decide; simpl); subst; try congruence;
      rewrite IH; case_bool_decide; congruence.
Qed.

(** ** Heap lookups *)

Arguments upd : simpl never.
Arguments ext : simpl never.

Lemma lookup_upd_eq (w : world) (l : loc) (o : obj) :
  is_Some (heap w !! l) -> heap (upd l o w) !! l = Some o.
Proof.
  intros Hl. unfold upd. simpl. apply list_lookup_insert_eq. by apply lookup_lt_is_Some.
Qed.

Lemma lookup_upd_ne (w : world) (l l' : loc) (o : obj) :
  l <> l' -> heap (upd l o w) !! l' = heap w !! l'.
Proof. intros Hne. unfold upd. simpl. by apply list_lookup_insert_ne. Qed.

Lemma lookup_ext_old (w : world) (l : loc) (o x : obj) :
  heap w !! l = Some x -> heap (ext o w) !! l = Some x.
Proof. intros Hl. unfold ext. simpl. by apply lookup_app_l_Some. Qed.

Lemma lookup_ext_new (w : world) (o : obj) :
  heap (ext o w) !! length (heap w) = Some o.
Proof. unfold ext. simpl. by rewrite list_lookup_middle. Qed.

Lemma upd_upd (w : world) (l : loc) (o o' : obj) :
  upd l o (upd l o' w) = upd l o w.
Proof. unfold upd, set_heap. simpl. by rewrite list_insert_insert_eq. Qed.

Lemma upd_same (w : world) (l : loc) (o : obj) :
  heap w !! l = Some o -> upd l o w = w.
Proof.
  intros Hl. destruct w as [h c]. unfold upd, set_heap. simpl in *.
  by rewrite list_insert_id.
Qed.

Lemma length_upd (w : world) (l : loc) (o : obj) :
  length (heap (upd l o w)) = length (heap w).
Proof. unfold upd. simpl. apply length_insert. Qed.

Lemma lookup_ne (w : world) (l l' : loc) (o o' : obj) :
  heap w !! l = Some o -> heap w !! l' = Some o' -> o <> o' -> l <> l'.
Proof. intros H1 H2 Hne ->. congruence. Qed.

(** objects of different classes sit at different locations *)
Lemma span_ddspan_ne (w : world) (l l' : loc) (s : Span) (d : DatadogSpan) :
  heap w !! l = Some (OSpan s) -> heap w !! l' = Some (ODDSpan d) -> l' <> l.
Proof. intros H1 H2 ->. congruence. Qed.

(** ** The primitives on a heap of the right shape *)

Lemma load_span_eq (w : world) (l : loc) (s : Span) :
  heap w !! l = Some (OSpan s) -> load_span l w = Return s w.
Proof. intros H. unfold load_span, bind, load. by rewrite H. Qed.

Lemma load_ddspan_eq (w : world) (l : loc) (d : DatadogSpan) :
  heap w !! l = Some (ODDSpan d) -> load_ddspan l w = Return d w.
Proof. intros H. unfold load_ddspan, bind, load. by rewrite H. Qed.

Lemma load_context_eq (w : world) (l : loc) (c : SpanContext) :
  heap w !! l = Some (OContext c) -> load_context l w = Return c w.
Proof. intros H. unfold load_context, bind, load. by rewrite H. Qed.

Lemma load_dict_eq (w : world) (l : loc) (d : dict) :
  heap w !! l = Some (ODict d) -> load_dict l w = Return d w.
Proof. intros H. unfold load_dict, bind, load. by rewrite H. Qed.

Lemma load_tracer_eq (w : world) (l : loc) (t : pyval) :
  heap w !! l = Some (OTracer t) -> load_tracer l w = Return t w.
Proof. intros H. unfold load_tracer, bind, load. by rewrite H. Qed.

Lemma update_ddspan_eq (w : world) (l : loc) (d : DatadogSpan) f :
  heap w !! l = Some (ODDSpan d) ->
  update_ddspan l f w = Return tt (upd l (ODDSpan (f d)) w).
Proof. intros H. unfold update_ddspan, bind. by rewrite (load_ddspan_eq _ _ _ H). Qed.

Lemma update_span_eq (w : world) (l : loc) (s : Span) f :
  heap w !! l = Some (OSpan s) ->
  update_span l f w = Return tt (upd l (OSpan (f s)) w).
Proof. intros H. unfold update_span, bind. by rewrite (load_span_eq _ _ _ H). Qed.

(** ** The methods of the underlying span *)

Lemma DatadogSpan_finish_eq (w : world) (l : loc) (d : DatadogSpan) (t : pyval) :
  heap w !! l = Some (ODDSpan d) ->
  DatadogSpan_finish l t w
  = Return tt (upd l (ODDSpan (closed (clock w) t (add_event (CallFinish t) d))) w).
Proof.
  intros H. unfold DatadogSpan_finish, bind, time_time.
  by rewrite (update_ddspan_eq _ _ _ _ H).
Qed.

Lemma DatadogSpan_exit_eq (w : world) (l : loc) (d : DatadogSpan) (a b c : pyval) :
  heap w !! l = Some (ODDSpan d) ->
  DatadogSpan_exit l a b c w
  = Return tt (upd l (ODDSpan (closed (clock w) VNone (add_event (CallExit a b c) d))) w).
Proof.
  intros H. unfold DatadogSpan_exit, bind, time_time.
  by rewrite (update_ddspan_eq _ _ _ _ H).
Qed.

Lemma closed_finished (now t : pyval) (d : DatadogSpan) :
  dd_finished (closed now t d) = true.
Proof. unfold closed. by destruct (dd_finished d) eqn:E. Qed.

Lemma finish_calls_closed (now t : pyval) (d : DatadogSpan) :
  finish_calls (closed now t d) = finish_calls d.
Proof.
  unfold closed, finish_calls. destruct (dd_finished d); [done|].
  simpl. rewrite List.filter_app. simpl. by rewrite app_nil_r.
Qed.

Lemma finish_calls_add_event (e : dd_event) (d : DatadogSpan) :
  finish_calls (add_event e d)
  = (finish_calls d + if is_finish_call e then 1 else 0)%nat.
Proof.
  unfold finish_calls. simpl. rewrite List.filter_app, length_app. simpl.
  by destruct (is_finish_call e).
Qed.

(** ** [Span.finish] *)

Lemma Span_finish_finished (w : world) (self : loc) (s : Span) (t : pyval) :
  heap w !! self = Some (OSpan s) -> finished s = true ->
  Span_finish self t w = Return tt w.
Proof.
  intros Hs Hf. unfold Span_finish, bind.
  by rewrite (load_span_eq _ _ _ Hs), Hf.
Qed.

Lemma Span_finish_unfinished (w : world) (self : loc) (s : Span) (d : DatadogSpan)
    (t : pyval) :
  heap w !! self = Some (OSpan s) -> heap w !! _dd_span s = Some (ODDSpan d) ->
  finished s = false ->
  Span_finish self t w
  = Return tt
      (upd self (OSpan (set_finished true s))
         (upd (_dd_span s)
            (ODDSpan (closed (clock w) t (add_event (CallFinish t) d))) w)).
Proof.
  intros Hs Hd Hf. unfold Span_finish, bind.
  rewrite (load_span_eq _ _ _ Hs), Hf.
  rewrite (DatadogSpan_finish_eq _ _ _ _ Hd).
  erewrite update_span_eq; [done|].
  rewrite lookup_upd_ne; [done|]. eapply span_ddspan_ne; eauto.
Qed.

Lemma finish_each_finished (w : world) (self : loc) (s : Span) (ts : list pyval) :
  heap w !! self = Some (OSpan s) -> finished s = true ->
  finish_each self ts w = Return tt w.
Proof.
  intros Hs Hf. induction ts as [|t ts IH]; [done|].
  simpl. unfold bind. by rewrite (Span_finish_finished _ _ _ _ Hs Hf).
Qed.

(** C1. Once [finished] is set, [finish], with or without an end time,
    returns at once and leaves the world as it is; and over any sequence of
    [finish] calls the underlying span's [finish] is called at most once. *)
Theorem finish_idempotent (w : world) (self : loc) (s : Span) (d : DatadogSpan) :
  heap w !! self = Some (OSpan s) ->
  heap w !! _dd_span s = Some (ODDSpan d) ->
  (finished s = true -> forall t, Span_finish self t w = Return tt w) /\
  (forall ts, exists w' s' d',
      finish_each self ts w = Return tt w' /\
      heap w' !! self = Some (OSpan s') /\
      _dd_span s' = _dd_span s /\
      heap w' !! _dd_span s = Some (ODDSpan d') /\
      (finish_calls d' <= finish_calls d + 1)%nat /\
      (finished s = true -> w' = w) /\
      (finished s = false -> ts <> [] ->
       finished s' = true /\ finish_calls d' = (finish_calls d + 1)%nat)).
Proof.
  intros Hs Hd. split.
  { intros Hf t. by apply Span_finish_finished with s. }
  intros ts. destruct (finished s) eqn:Hf.
  { exists w, s, d. rewrite (finish_each_finished _ _ _ _ Hs Hf).
    repeat split; try done. lia. }
  destruct ts as [|t ts].
  { exists w, s, d. repeat split; try done. lia. }
  pose proof (span_ddspan_ne _ _ _ _ _ Hs Hd) as Hne.
  set (d1 := closed (clock w) t (add_event (CallFinish t) d)).
  set (w1 := upd self (OSpan (set_finished true s))
               (upd (_dd_span s) (ODDSpan d1) w)).
  assert (heap w1 !! self = Some (OSpan (set_finished true s))) as Hs1.
  { apply lookup_upd_eq. rewrite lookup_upd_ne by done. by rewrite Hs. }
  exists w1, (set_finished true s), d1. cbn [finish_each]. unfold bind.
  rewrite (Span_finish_unfinished _ _ _ _ _ Hs Hd Hf). fold d1 w1.
  rewrite (finish_each_finished _ _ _ _ Hs1 eq_refl).
  split; [done|]. split; [done|]. split; [done|]. split.
  { unfold w1. rewrite lookup_upd_ne by done.
    apply lookup_upd_eq. by rewrite Hd. }
  unfold d1. rewrite finish_calls_closed, finish_calls_add_event. simpl.
  repeat split; done.
Qed.

Lemma finish_idempotent_witness :
  (finished span_example = true ->
   forall t, Span_finish 5%nat t world_span = Return tt world_span) /\
  (forall ts, exists w' s' d',
      finish_each 5%nat ts world_span = Return tt w' /\
      heap w' !! 5%nat = Some (OSpan s') /\
      _dd_span s' = _dd_span span_example /\
      heap w' !! _dd_span span_example = Some (ODDSpan d') /\
      (finish_calls d' <= finish_calls ddspan_example + 1)%nat /\
      (finished span_example = true -> w' = world_span) /\
      (finished span_example = false -> ts <> [] ->
       finished s' = true /\ finish_calls d' = (finish_calls ddspan_example + 1)%nat)).
Proof.
  apply (finish_idempotent world_span 5%nat span_example ddspan_example);
    reflexivity.
Defined.

(** ** [SpanLog] *)

Lemma list_getitem_nat {A} (l : list A) (i : nat) (x : A) :
  l !! i = Some x ->
  list_getitem l (Z.of_nat i) = inr x /\
  list_getitem l (Z.of_nat i - Z.of_nat (length l)) = inr x.
Proof.
  intros Hi. pose proof (lookup_lt_Some _ _ _ Hi) as Hlt.
  unfold list_getitem. split.
  - destruct (Z.ltb_spec (Z.of_nat i) 0); [lia|].
    destruct (Z.ltb_spec (Z.of_nat i) 0); [lia|].
    destruct (Z.leb_spec (Z.of_nat (length l)) (Z.of_nat i)); [lia|].
    simpl. by rewrite Nat2Z.id, Hi.
  - destruct (Z.ltb_spec (Z.of_nat i - Z.of_nat (length l)) 0); [|lia].
    replace (Z.of_nat i - Z.of_nat (length l) + Z.of_nat (length l))
      with (Z.of_nat i) by lia.
    destruct (Z.ltb_spec (Z.of_nat i) 0); [lia|].
    destruct (Z.leb_spec (Z.of_nat (length l)) (Z.of_nat i)); [lia|].
    simpl. by rewrite Nat2Z.id, Hi.
Qed.

Lemma list_getitem_out {A} (l : list A) (i : Z) :
  i < - Z.of_nat (length l) \/ Z.of_nat (length l) <= i ->
  list_getitem l i = inl IndexError.
Proof.
  intros Hi. unfold list_getitem.
  destruct (Z.ltb_spec i 0).
  - destruct (Z.ltb_spec (i + Z.of_nat (length l)) 0); [done|lia].
  - destruct (Z.ltb_spec i 0); [lia|].
    destruct (Z.leb_spec (Z.of_nat (length l)) i); [done|lia].
Qed.

Lemma add_records_eq (w : world) (entries : list (pyval * pyval)) (lg : SpanLog) :
  add_records lg entries w
  = Return {| records := records lg ++ map (record_of (clock w)) entries |} w.
Proof.
  revert lg. induction entries as [|[kv ts] entries IH]; intros lg; simpl.
  - rewrite app_nil_r. by destruct lg.
  - unfold bind, SpanLog_add_record, SpanLogRecord_init, bind.
    assert ((if truthy ts then ret ts else time_time) w
            = Return (py_or ts (clock w)) w) as ->.
    { unfold py_or. by destruct (truthy ts). }
    unfold ret. rewrite IH. simpl. by rewrite <- app_assoc.
Qed.

(** C7. A log is an ordered, append-only sequence: after the records of
    [entries] were appended to a new log, its length is their number, an
    [int] index [i] or [i - len] gives the [i]-th record appended (so [0] the
    first and [-1] the last), an [int] outside the range raises [IndexError]
    and a key that is not an [int] raises [TypeError]. *)
Theorem spanlog_indexing (w : world) (entries : list (pyval * pyval)) :
  exists lg,
    add_records SpanLog_init entries w = Return lg w /\
    SpanLog_len lg = length entries /\
    (forall (i : nat) e, entries !! i = Some e ->
       SpanLog_getitem lg (VInt (Z.of_nat i)) = inr (record_of (clock w) e) /\
       SpanLog_getitem lg (VInt (Z.of_nat i - Z.of_nat (length entries)))
       = inr (record_of (clock w) e)) /\
    (forall e, head entries = Some e ->
       SpanLog_getitem lg (VInt 0) = inr (record_of (clock w) e)) /\
    (forall e, last entries = Some e ->
       SpanLog_getitem lg (VInt (-1)) = inr (record_of (clock w) e)) /\
    (forall i, i < - Z.of_nat (length entries) \/ Z.of_nat (length entries) <= i ->
       SpanLog_getitem lg (VInt i) = inl IndexError) /\
    (forall key, type_is_int key = false -> SpanLog_getitem lg key = inl TypeError).
Proof.
  eexists. rewrite add_records_eq. split; [reflexivity|]. simpl.
  assert (forall (i : nat) e, entries !! i = Some e ->
    list_getitem (map (record_of (clock w)) entries) (Z.of_nat i)
    = inr (record_of (clock w) e) /\
    list_getitem (map (record_of (clock w)) entries)
      (Z.of_nat i - Z.of_nat (length entries)) = inr (record_of (clock w) e)) as Hidx.
  { intros i e Hi.
    rewrite <- (length_map (record_of (clock w)) entries).
    apply list_getitem_nat. by rewrite list_lookup_fmap, Hi. }
  split; [apply length_map|].
  split; [exact Hidx|].
  split.
  { intros e He. apply (Hidx 0%nat e). by rewrite <- head_lookup. }
  split.
  { intros e He. rewrite last_lookup in He.
    destruct entries as [|e0 entries]; [done|].
    destruct (Hidx _ _ He) as [_ H2]. simpl in H2, He.
    replace (Z.of_nat (length entries) - Z.of_nat (S (length entries)))
      with (-1) in H2 by lia.
    exact H2. }
  split.
  { intros i Hi. apply list_getitem_out. by rewrite length_map. }
  intros key Hk. by destruct key.
Qed.

Section TagFacts.

Variable OTTags : OTTagsT.
Variable errors : errorsT.

(** ** [Span.set_tag] *)

Lemma Span_set_tag_eq (w : world) (self : loc) (s : Span) (d : DatadogSpan)
    (key : string) (value : pyval) :
  heap w !! self = Some (OSpan s) -> heap w !! _dd_span s = Some (ODDSpan d) ->
  Span_set_tag OTTags self key value w
  = Return tt (upd (_dd_span s) (ODDSpan (routed OTTags key value d)) w).
Proof.
  intros Hs Hd. unfold Span_set_tag, routed, DatadogSpan_set_tag, bind.
  rewrite (load_span_eq _ _ _ Hs).
  destruct (bool_decide (key = SPAN_TYPE OTTags));
    [by rewrite (update_ddspan_eq _ _ _ _ Hd)|].
  destruct (bool_decide (key = HTTP_URL OTTags) || bool_decide (key = DB_STATEMENT OTTags));
    by rewrite (update_ddspan_eq _ _ _ _ Hd).
Qed.

Lemma routed_not_reserved (key : string) (value : pyval) (d : DatadogSpan) :
  ~ reserved OTTags key -> routed OTTags key value d = tag_set key value d.
Proof.
  intros Hr. unfold routed, reserved in *.
  repeat (case_bool_decide; simpl); tauto.
Qed.

(** C2. [set_tag] routes by key: the span-type key goes to the [span_type]
    field of the underlying span, the HTTP-URL and database-statement keys go
    to its [resource] field, in both cases without a generic tag, and every
    other key is forwarded to the underlying span's [set_tag]. *)
Theorem set_tag_routing (w : world) (self : loc) (s : Span) (d : DatadogSpan)
    (value : pyval) :
  heap w !! self = Some (OSpan s) ->
  heap w !! _dd_span s = Some (ODDSpan d) ->
  SPAN_TYPE OTTags <> HTTP_URL OTTags ->
  SPAN_TYPE OTTags <> DB_STATEMENT OTTags ->
  Span_set_tag OTTags self (SPAN_TYPE OTTags) value w
  = Return tt (upd (_dd_span s) (ODDSpan (set_span_type value d)) w) /\
  Span_set_tag OTTags self (HTTP_URL OTTags) value w
  = Return tt (upd (_dd_span s) (ODDSpan (set_resource value d)) w) /\
  Span_set_tag OTTags self (DB_STATEMENT OTTags) value w
  = Return tt (upd (_dd_span s) (ODDSpan (set_resource value d)) w) /\
  (forall key, ~ reserved OTTags key ->
     Span_set_tag OTTags self key value w = DatadogSpan_set_tag (_dd_span s) key value w /\
     Span_set_tag OTTags self key value w
     = Return tt (upd (_dd_span s) (ODDSpan (tag_set key value d)) w)) /\
  (span_type (set_span_type value d) = value /\
   meta (set_span_type value d) = meta d /\
   trace (set_span_type value d) = trace d) /\
  (resource (set_resource value d) = value /\
   meta (set_resource value d) = meta d /\
   trace (set_resource value d) = trace d) /\
  (forall key, meta (tag_set key value d) = dict_set key value (meta d) /\
     trace (tag_set key value d) = (trace d ++ [CallSetTag key value])%list /\
     span_type (tag_set key value d) = span_type d /\
     resource (tag_set key value d) = resource d).
Proof.
  intros Hs Hd H1 H2.
  split; [|split; [|split; [|split]]].
  - rewrite (Span_set_tag_eq _ _ _ _ _ _ Hs Hd). unfold routed.
    by rewrite bool_decide_true.
  - rewrite (Span_set_tag_eq _ _ _ _ _ _ Hs Hd). unfold routed.
    rewrite bool_decide_false by congruence. by rewrite bool_decide_true.
  - rewrite (Span_set_tag_eq _ _ _ _ _ _ Hs Hd). unfold routed.
    rewrite bool_decide_false by congruence.
    rewrite (bool_decide_true (DB_STATEMENT OTTags = DB_STATEMENT OTTags)) by done.
    by rewrite orb_true_r.
  - intros key Hk. rewrite (Span_set_tag_eq _ _ _ _ _ _ Hs Hd).
    rewrite (routed_not_reserved _ _ _ Hk). split; [|done].
    unfold DatadogSpan_set_tag. by rewrite (update_ddspan_eq _ _ _ _ Hd).
  - done.
Qed.

(** ** [Span.log_kv] *)

Lemma log_kv_item_eq (w : world) (self : loc) (s : Span) (d : DatadogSpan)
    (key : string) (val : pyval) :
  heap w !! self = Some (OSpan s) -> heap w !! _dd_span s = Some (ODDSpan d) ->
  log_kv_item OTTags errors self key val w
  = Return tt (upd (_dd_span s) (ODDSpan (item_effect OTTags errors key val d)) w).
Proof.
  intros Hs Hd. pose proof (span_ddspan_ne _ _ _ _ _ Hs Hd) as Hne.
  unfold log_kv_item, item_effect.
  destruct (bool_decide (key = "event") && eq_str val "error").
  { unfold bind. rewrite (load_span_eq _ _ _ Hs).
    rewrite (update_ddspan_eq _ _ _ _ Hd).
    erewrite Span_set_tag_eq.
    - by rewrite upd_upd.
    - rewrite lookup_upd_ne by done. exact Hs.
    - apply lookup_upd_eq. by rewrite Hd. }
  destruct (bool_decide (key = "error") || bool_decide (key = "error.object"));
    [by apply Span_set_tag_eq|].
  destruct (bool_decide (key = "message")); [by apply Span_set_tag_eq|].
  destruct (bool_decide (key = "stack")); [by apply Span_set_tag_eq|].
  unfold ret. by rewrite (upd_same _ _ _ Hd).
Qed.

Lemma log_kv_items_eq (items : dict) (w : world) (self : loc) (s : Span)
    (d : DatadogSpan) :
  heap w !! self = Some (OSpan s) -> heap w !! _dd_span s = Some (ODDSpan d) ->
  log_kv_items OTTags errors self items w
  = Return tt (upd (_dd_span s) (ODDSpan (items_effect OTTags errors items d)) w).
Proof.
  revert w d. induction items as [|[key val] items IH]; intros w d Hs Hd.
  - simpl. unfold ret. by rewrite (upd_same _ _ _ Hd).
  - pose proof (span_ddspan_ne _ _ _ _ _ Hs Hd) as Hne.
    cbn [log_kv_items]. unfold bind.
    rewrite (log_kv_item_eq _ _ _ _ _ _ Hs Hd).
    erewrite IH.
    + by rewrite upd_upd.
    + rewrite lookup_upd_ne by done. exact Hs.
    + apply lookup_upd_eq. by rewrite Hd.
Qed.

Lemma Span_log_kv_eq (w : world) (self : loc) (s : Span) (d : DatadogSpan)
    (key_values : loc) (items : dict) (timestamp : pyval) :
  heap w !! self = Some (OSpan s) -> heap w !! _dd_span s = Some (ODDSpan d) ->
  heap w !! key_values = Some (ODict items) ->
  Span_log_kv OTTags errors self key_values timestamp w
  = Return (VRef self)
      (upd (_dd_span s) (ODDSpan (items_effect OTTags errors items d))
         (upd self
            (OSpan (set_log
               {| records := (records (log s)
                             ++ [record_of (clock w) (VRef key_values, timestamp)])%list |} s))
            w)).
Proof.
  intros Hs Hd Hk. pose proof (span_ddspan_ne _ _ _ _ _ Hs Hd) as Hne.
  assert (self <> key_values) as Hne2 by (intros ->; congruence).
  unfold Span_log_kv, bind. rewrite (load_span_eq _ _ _ Hs).
  unfold SpanLog_add_record, SpanLogRecord_init, bind.
  assert ((if truthy timestamp then ret timestamp else time_time) w
          = Return (py_or timestamp (clock w)) w) as ->.
  { unfold py_or. by destruct (truthy timestamp). }
  unfold ret at 1 2. rewrite (update_span_eq _ _ _ _ Hs).
  erewrite load_dict_eq by (rewrite lookup_upd_ne by done; exact Hk).
  match goal with
  | |- context [upd self (OSpan ?s1) w] =>
      rewrite (log_kv_items_eq items (upd self (OSpan s1) w) self s1 d)
  end; [done| |].
  - apply lookup_upd_eq. by rewrite Hs.
  - rewrite lookup_upd_ne by done. exact Hd.
Qed.

Lemma item_effect_rule (key : string) (val : pyval) (d : DatadogSpan) :
  ~ reserved OTTags "error" -> ~ reserved OTTags (ERROR_TYPE errors) ->
  ~ reserved OTTags (ERROR_MSG errors) -> ~ reserved OTTags (ERROR_STACK errors) ->
  item_effect OTTags errors key val d = apply_rule errors (rule_of key val) val d.
Proof.
  intros H1 H2 H3 H4. unfold item_effect, rule_of.
  assert (bool_decide (key = "event") && eq_str val "error"
          = bool_decide (key = "event" /\ val = VStr "error")) as ->.
  { destruct val; simpl; repeat case_bool_decide; simpl; try done;
      exfalso; intuition congruence. }
  assert (bool_decide (key = "error") || bool_decide (key = "error.object")
          = bool_decide (key = "error" \/ key = "error.object")) as ->.
  { repeat case_bool_decide; simpl; try done; exfalso; intuition congruence. }
  repeat case_bool_decide; simpl; by rewrite ?routed_not_reserved.
Qed.

Lemma items_effect_translated (items : dict) (d : DatadogSpan) :
  ~ reserved OTTags "error" -> ~ reserved OTTags (ERROR_TYPE errors) ->
  ~ reserved OTTags (ERROR_MSG errors) -> ~ reserved OTTags (ERROR_STACK errors) ->
  items_effect OTTags errors items d = translated errors items d.
Proof.
  intros H1 H2 H3 H4. unfold items_effect, translated.
  revert d. induction items as [|[k v] items IH]; intros d; [done|].
  simpl. by rewrite item_effect_rule, IH.
Qed.

End TagFacts.

Lemma set_tag_routing_witness :
  heap world_span !! 5%nat = Some (OSpan span_example) /\
  heap world_span !! 4%nat = Some (ODDSpan ddspan_example) /\
  Span_set_tag tags_example 5%nat "span.kind" (VStr "client") world_span
  = Return tt
      (upd 4%nat (ODDSpan (set_span_type (VStr "client") ddspan_example)) world_span).
Proof.
  split; [reflexivity|]. split; [reflexivity|].
  apply (set_tag_routing tags_example world_span 5%nat span_example
           ddspan_example (VStr "client")); done.
Defined.

(** ** [Span.__exit__] *)

Lemma closings_add_event (e : dd_event) (d : DatadogSpan) :
  closings (add_event e d) = (closings d + if is_closed e then 1 else 0)%nat.
Proof.
  unfold closings. simpl. rewrite List.filter_app, length_app. simpl.
  by destruct (is_closed e).
Qed.

Lemma closings_closed (now t : pyval) (d : DatadogSpan) :
  closings (closed now t d)
  = (closings d + if dd_finished d then 0 else 1)%nat.
Proof.
  unfold closed. destruct (dd_finished d); [lia|].
  change (closings (set_dd_finished true ?x)) with (closings x).
  by rewrite closings_add_event.
Qed.

Lemma trace_closed (now t : pyval) (d : DatadogSpan) :
  exists rest, trace (closed now t d) = (trace d ++ rest)%list.
Proof.
  unfold closed. destruct (dd_finished d).
  - exists []. by rewrite app_nil_r.
  - by eexists.
Qed.

Lemma exc_info_closed (now t : pyval) (d : DatadogSpan) :
  exc_info (closed now t d) = exc_info d.
Proof. unfold closed. by destruct (dd_finished d). Qed.

Lemma Span_exit_eq (w : world) (self : loc) (s : Span) (d : DatadogSpan)
    (exc_type exc_val exc_tb : pyval) :
  heap w !! self = Some (OSpan s) -> heap w !! _dd_span s = Some (ODDSpan d) ->
  let d1 := if truthy exc_type then exc_recorded exc_type exc_val exc_tb d else d in
  let d2 := closed (clock w) VNone (add_event (CallExit exc_type exc_val exc_tb) d1) in
  Span_exit self exc_type exc_val exc_tb w
  = Return tt
      (if finished s then upd (_dd_span s) (ODDSpan d2) w
       else upd self (OSpan (set_finished true s))
              (upd (_dd_span s)
                 (ODDSpan (closed (clock w) VNone (add_event (CallFinish VNone) d2))) w)).
Proof.
  intros Hs Hd d1 d2. pose proof (span_ddspan_ne _ _ _ _ _ Hs Hd) as Hne.
  unfold Span_exit, bind. rewrite (load_span_eq _ _ _ Hs).
  assert ((if truthy exc_type
           then DatadogSpan_set_exc_info (_dd_span s) exc_type exc_val exc_tb
           else ret tt) w = Return tt (upd (_dd_span s) (ODDSpan d1) w)) as ->.
  { unfold d1, DatadogSpan_set_exc_info, ret. destruct (truthy exc_type).
    - by rewrite (update_ddspan_eq _ _ _ _ Hd).
    - by rewrite (upd_same _ _ _ Hd). }
  assert (heap (upd (_dd_span s) (ODDSpan d1) w) !! _dd_span s = Some (ODDSpan d1))
    as Hd1 by (apply lookup_upd_eq; by rewrite Hd).
  rewrite (DatadogSpan_exit_eq _ _ _ _ _ _ Hd1), upd_upd.
  change (clock (upd (_dd_span s) (ODDSpan d1) w)) with (clock w). fold d2.
  assert (heap (upd (_dd_span s) (ODDSpan d2) w) !! self = Some (OSpan s)) as Hs2
    by (rewrite lookup_upd_ne by done; exact Hs).
  assert (heap (upd (_dd_span s) (ODDSpan d2) w) !! _dd_span s = Some (ODDSpan d2))
    as Hd2 by (apply lookup_upd_eq; by rewrite Hd).
  destruct (finished s) eqn:Hf.
  - by rewrite (Span_finish_finished _ _ _ _ Hs2 Hf).
  - rewrite (Span_finish_unfinished _ _ _ _ _ Hs2 Hd2 Hf). by rewrite upd_upd.
Qed.

(** C6. On exit, a pending exception is recorded on the underlying span
    before anything that finishes it, and with or without an exception the
    span is finished afterwards: the latch is set, the underlying span is
    closed, and over the span's life [finish] reached the underlying span
    from [Span.finish] once and the underlying span closed once. *)
Theorem exit_finishes_once (w : world) (self : loc) (s : Span) (d : DatadogSpan)
    (exc_type exc_val exc_tb : pyval) :
  heap w !! self = Some (OSpan s) ->
  heap w !! _dd_span s = Some (ODDSpan d) ->
  exists w' s' d',
    Span_exit self exc_type exc_val exc_tb w = Return tt w' /\
    heap w' !! self = Some (OSpan s') /\
    _dd_span s' = _dd_span s /\
    heap w' !! _dd_span s = Some (ODDSpan d') /\
    finished s' = true /\
    dd_finished d' = true /\
    (truthy exc_type = true ->
     exc_info d' = Some (exc_type, exc_val, exc_tb) /\
     exists rest,
       trace d' = (trace d ++ CallSetExcInfo exc_type exc_val exc_tb :: rest)%list) /\
    (truthy exc_type = false -> exc_info d' = exc_info d) /\
    (finish_calls d = (if finished s then 1 else 0)%nat -> finish_calls d' = 1%nat) /\
    (closings d = (if dd_finished d then 1 else 0)%nat -> closings d' = 1%nat).
Proof.
  intros Hs Hd. pose proof (span_ddspan_ne _ _ _ _ _ Hs Hd) as Hne.
  pose proof (Span_exit_eq _ _ _ _ exc_type exc_val exc_tb Hs Hd) as Heq.
  cbv zeta in Heq.
  set (d1 := if truthy exc_type then exc_recorded exc_type exc_val exc_tb d else d)
    in Heq.
  set (e2 := add_event (CallExit exc_type exc_val exc_tb) d1) in Heq.
  set (d2 := closed (clock w) VNone e2) in Heq.
  set (d3 := closed (clock w) VNone (add_event (CallFinish VNone) d2)) in Heq.
  assert (finish_calls d2 = finish_calls d) as Hfc.
  { unfold d2, e2. rewrite finish_calls_closed, finish_calls_add_event. simpl.
    unfold d1, exc_recorded. destruct (truthy exc_type); [|lia].
    change (finish_calls (set_exc_info ?e ?x)) with (finish_calls x).
    rewrite finish_calls_add_event. simpl. lia. }
  assert (closings d1 = closings d /\ dd_finished d1 = dd_finished d) as [Hc1 Hf1].
  { unfold d1, exc_recorded. destruct (truthy exc_type); [|done].
    change (closings (set_exc_info ?e ?x)) with (closings x).
    rewrite closings_add_event. simpl. split; [lia|done]. }
  assert (closings d = (if dd_finished d then 1 else 0)%nat -> closings d2 = 1%nat)
    as Hc2.
  { intros Hc. unfold d2, e2. rewrite closings_closed, closings_add_event. simpl.
    rewrite Hc1, Hf1, Hc. destruct (dd_finished d); lia. }
  assert (truthy exc_type = true ->
          exc_info d2 = Some (exc_type, exc_val, exc_tb) /\
          exists rest,
            trace d2 = (trace d ++ CallSetExcInfo exc_type exc_val exc_tb :: rest)%list)
    as He2.
  { intros Ht. unfold d2. rewrite exc_info_closed.
    destruct (trace_closed (clock w) VNone e2) as [rest Hrest]. rewrite Hrest.
    unfold e2, d1. rewrite Ht. simpl. split; [done|].
    eexists. rewrite <- !app_assoc. reflexivity. }
  assert (truthy exc_type = false -> exc_info d2 = exc_info d) as He2'.
  { intros Ht. unfold d2. rewrite exc_info_closed. unfold e2, d1. by rewrite Ht. }
  destruct (finished s) eqn:Hf.
  - exists (upd (_dd_span s) (ODDSpan d2) w), s, d2.
    split; [exact Heq|].
    split; [by rewrite lookup_upd_ne|].
    split; [done|].
    split; [apply lookup_upd_eq; by rewrite Hd|].
    split; [done|].
    split; [apply closed_finished|].
    split; [exact He2|].
    split; [exact He2'|].
    split; [by rewrite Hfc|exact Hc2].
  - exists (upd self (OSpan (set_finished true s)) (upd (_dd_span s) (ODDSpan d3) w)),
      (set_finished true s), d3.
    split; [exact Heq|].
    split; [apply lookup_upd_eq; rewrite lookup_upd_ne by done; by rewrite Hs|].
    split; [done|].
    split; [rewrite lookup_upd_ne by done; apply lookup_upd_eq; by rewrite Hd|].
    split; [done|].
    split; [apply closed_finished|].
    split.
    { intros Ht. destruct (He2 Ht) as [Hi [rest Hrest]]. unfold d3.
      rewrite exc_info_closed. split; [exact Hi|].
      destruct (trace_closed (clock w) VNone (add_event (CallFinish VNone) d2))
        as [rest' Hrest'].
      rewrite Hrest'. simpl. rewrite Hrest. eexists.
      rewrite <- !app_assoc. reflexivity. }
    split.
    { intros Ht. unfold d3. rewrite exc_info_closed. by apply He2'. }
    split.
    { intros Hc. unfold d3. rewrite finish_calls_closed, finish_calls_add_event.
      simpl. rewrite Hfc, Hc. done. }
    intros Hc. unfold d3. rewrite closings_closed, closings_add_event. simpl.
    rewrite (Hc2 Hc). unfold d2. rewrite closed_finished. done.
Qed.

Lemma exit_finishes_once_witness :
  heap world_raised !! 5%nat = Some (OSpan span_example) /\
  heap world_raised !! 4%nat = Some (ODDSpan ddspan_example) /\
  exists w' s' d',
    Span_exit 5%nat (VRef 6%nat) (VRef 7%nat) (VRef 8%nat) world_raised
    = Return tt w' /\
    heap w' !! 5%nat = Some (OSpan s') /\
    _dd_span s' = 4%nat /\
    heap w' !! 4%nat = Some (ODDSpan d') /\
    finished s' = true /\
    dd_finished d' = true /\
    (truthy (VRef 6%nat) = true ->
     exc_info d' = Some (VRef 6%nat, VRef 7%nat, VRef 8%nat) /\
     exists rest,
       trace d'
       = (trace ddspan_example
          ++ CallSetExcInfo (VRef 6%nat) (VRef 7%nat) (VRef 8%nat) :: rest)%list) /\
    (truthy (VRef 6%nat) = false -> exc_info d' = exc_info ddspan_example) /\
    (finish_calls ddspan_example = 0%nat -> finish_calls d' = 1%nat) /\
    (closings ddspan_example = 0%nat -> closings d' = 1%nat).
Proof.
  split; [reflexivity|]. split; [reflexivity|].
  apply (exit_finishes_once world_raised 5%nat span_example ddspan_example
           (VRef 6%nat) (VRef 7%nat) (VRef 8%nat)); reflexivity.
Defined.

(** leaving the block with an exception: what the underlying span received *)
Example exit_with_exception :
  exists w' d',
    Span_exit 5%nat (VRef 6%nat) (VRef 7%nat) (VRef 8%nat) world_raised
    = Return tt w' /\
    heap w' !! 4%nat = Some (ODDSpan d') /\
    trace d' = [CallSetExcInfo (VRef 6%nat) (VRef 7%nat) (VRef 8%nat);
                CallExit (VRef 6%nat) (VRef 7%nat) (VRef 8%nat);
                Closed (VFloat 3 2); CallFinish VNone].
Proof. eexists _, _. repeat split. Qed.

(** leaving the block after an explicit [finish], without an exception: the
    underlying span is not closed again and [Span.finish] does not call it *)
Example exit_after_finish :
  exists w' d',
    Span_exit 5%nat VNone VNone VNone world_finished = Return tt w' /\
    heap w' !! 4%nat = Some (ODDSpan d') /\
    trace d' = [CallFinish VNone; Closed (VFloat 3 2); CallExit VNone VNone VNone] /\
    exc_info d' = None.
Proof. eexists _, _. repeat split. Qed.

(** ** Baggage *)

Lemma lookup_ext_lt (w : world) (l : loc) (o : obj) :
  (l < length (heap w))%nat -> heap (ext o w) !! l = heap w !! l.
Proof. intros Hl. unfold ext. simpl. by apply lookup_app_l. Qed.

Lemma length_ext (w : world) (o : obj) :
  length (heap (ext o w)) = S (length (heap w)).
Proof. unfold ext. simpl. rewrite length_app. simpl. lia. Qed.

Lemma SpanContext_with_baggage_item_eq (w : world) (self : loc) (c : SpanContext)
    (b : dict) (key : string) (value : pyval) :
  heap w !! self = Some (OContext c) -> heap w !! baggage c = Some (ODict b) ->
  SpanContext_with_baggage_item self key value w
  = Return (S (length (heap w)))
      (ext (OContext {| _dd_context := _dd_context c; baggage := length (heap w) |})
         (ext (ODict (dict_set key value b)) w)).
Proof.
  intros Hc Hb. unfold SpanContext_with_baggage_item, bind.
  rewrite (load_context_eq _ _ _ Hc), (load_dict_eq _ _ _ Hb).
  unfold alloc. simpl. by rewrite length_app, Nat.add_1_r.
Qed.

Lemma SpanContext_get_baggage_item_eq (w : world) (self : loc) (c : SpanContext)
    (b : dict) (key : string) :
  heap w !! self = Some (OContext c) -> heap w !! baggage c = Some (ODict b) ->
  SpanContext_get_baggage_item self key w = Return (default VNone (dict_get key b)) w.
Proof.
  intros Hc Hb. unfold SpanContext_get_baggage_item, bind.
  by rewrite (load_context_eq _ _ _ Hc), (load_dict_eq _ _ _ Hb).
Qed.

Lemma Span_get_baggage_item_eq (w : world) (self : loc) (s : Span) (c : SpanContext)
    (b : dict) (key : string) :
  heap w !! self = Some (OSpan s) ->
  heap w !! _context s = Some (OContext c) -> heap w !! baggage c = Some (ODict b) ->
  Span_get_baggage_item self key w = Return (default VNone (dict_get key b)) w.
Proof.
  intros Hs Hc Hb. unfold Span_get_baggage_item, Span_context, bind.
  rewrite (load_span_eq _ _ _ Hs). unfold ret.
  by apply SpanContext_get_baggage_item_eq with c.
Qed.

Section BaggageFacts.

Variable OTTags : OTTagsT.

Lemma Span_set_baggage_item_eq (w : world) (self : loc) (s : Span) (d : DatadogSpan)
    (c : SpanContext) (b : dict) (key : string) (value : pyval) :
  heap w !! self = Some (OSpan s) -> heap w !! _dd_span s = Some (ODDSpan d) ->
  heap w !! _context s = Some (OContext c) -> heap w !! baggage c = Some (ODict b) ->
  lock s = false ->
  Span_set_baggage_item OTTags self key value w
  = Return (VRef self) (baggage_set OTTags w self s d c b key value).
Proof.
  intros Hs Hd Hc Hb Hl. pose proof (span_ddspan_ne _ _ _ _ _ Hs Hd) as Hne.
  unfold Span_set_baggage_item, Span_context, bind.
  rewrite (load_span_eq _ _ _ Hs). unfold ret at 1.
  rewrite (SpanContext_with_baggage_item_eq _ _ _ _ _ _ Hc Hb).
  set (w2 := ext _ (ext _ w)).
  assert (heap w2 !! self = Some (OSpan s)) as Hs2
    by (by apply lookup_ext_old, lookup_ext_old).
  assert (heap w2 !! _dd_span s = Some (ODDSpan d)) as Hd2
    by (by apply lookup_ext_old, lookup_ext_old).
  rewrite (Span_set_tag_eq _ _ _ _ _ _ _ Hs2 Hd2).
  set (w3 := upd _ _ w2).
  assert (heap w3 !! self = Some (OSpan s)) as Hs3
    by (unfold w3; by rewrite lookup_upd_ne).
  unfold Lock_acquire, bind. rewrite (load_span_eq _ _ _ Hs3), Hl.
  unfold store. fold (upd self (OSpan (set_lock true s)) w3).
  set (w4 := upd self _ w3).
  assert (heap w4 !! self = Some (OSpan (set_lock true s))) as Hs4
    by (apply lookup_upd_eq; by rewrite Hs3).
  rewrite (update_span_eq _ _ _ _ Hs4). unfold w4. rewrite upd_upd.
  set (w5 := upd self _ w3).
  assert (heap w5 !! self
          = Some (OSpan (set_context (S (length (heap w))) (set_lock true s)))) as Hs5
    by (apply lookup_upd_eq; by rewrite Hs3).
  unfold Lock_release. rewrite (update_span_eq _ _ _ _ Hs5). unfold w5.
  rewrite upd_upd. unfold ret, baggage_set. fold w2. fold w3.
  do 3 f_equal. destruct s. simpl in *. by subst.
Qed.

(** objects that were there before, other than the span and its underlying
    span, are as they were *)
Lemma baggage_set_frame (w : world) (self : loc) (s : Span) (d : DatadogSpan)
    (c : SpanContext) (b : dict) (key : string) (value : pyval) (l : loc) (o : obj) :
  heap w !! l = Some o -> l <> self -> l <> _dd_span s ->
  heap (baggage_set OTTags w self s d c b key value) !! l = Some o.
Proof.
  intros Hl H1 H2. unfold baggage_set.
  rewrite !lookup_upd_ne by done. by apply lookup_ext_old, lookup_ext_old.
Qed.

Lemma baggage_set_self (w : world) (self : loc) (s : Span) (d : DatadogSpan)
    (c : SpanContext) (b : dict) (key : string) (value : pyval) :
  heap w !! self = Some (OSpan s) ->
  heap (baggage_set OTTags w self s d c b key value) !! self
  = Some (OSpan (set_context (S (length (heap w))) s)).
Proof.
  intros Hs. unfold baggage_set. apply lookup_upd_eq.
  destruct (decide (_dd_span s = self)) as [->|Hne].
  - rewrite lookup_upd_eq; [done|].
    by rewrite (lookup_ext_old _ _ _ _ (lookup_ext_old _ _ _ _ Hs)).
  - rewrite lookup_upd_ne by done.
    by rewrite (lookup_ext_old _ _ _ _ (lookup_ext_old _ _ _ _ Hs)).
Qed.

Lemma baggage_set_ddspan (w : world) (self : loc) (s : Span) (d : DatadogSpan)
    (c : SpanContext) (b : dict) (key : string) (value : pyval) :
  heap w !! self = Some (OSpan s) -> heap w !! _dd_span s = Some (ODDSpan d) ->
  heap (baggage_set OTTags w self s d c b key value) !! _dd_span s
  = Some (ODDSpan (routed OTTags key value d)).
Proof.
  intros Hs Hd. pose proof (span_ddspan_ne _ _ _ _ _ Hs Hd) as Hne.
  unfold baggage_set. rewrite lookup_upd_ne by done.
  apply lookup_upd_eq.
  by rewrite (lookup_ext_old _ _ _ _ (lookup_ext_old _ _ _ _ Hd)).
Qed.

Lemma baggage_set_new (w : world) (self : loc) (s : Span) (d : DatadogSpan)
    (c : SpanContext) (b : dict) (key : string) (value : pyval) :
  heap w !! self = Some (OSpan s) -> heap w !! _dd_span s = Some (ODDSpan d) ->
  heap (baggage_set OTTags w self s d c b key value) !! S (length (heap w))
  = Some (OContext {| _dd_context := _dd_context c; baggage := length (heap w) |}) /\
  heap (baggage_set OTTags w self s d c b key value) !! length (heap w)
  = Some (ODict (dict_set key value b)).
Proof.
  intros Hs Hd.
  pose proof (lookup_lt_Some _ _ _ Hs) as Hlt1.
  pose proof (lookup_lt_Some _ _ _ Hd) as Hlt2.
  unfold baggage_set. rewrite !lookup_upd_ne by lia. split.
  - rewrite <- (length_ext w (ODict (dict_set key value b))). apply lookup_ext_new.
  - rewrite lookup_ext_lt by (rewrite length_ext; lia). apply lookup_ext_new.
Qed.

End BaggageFacts.

Section BaggageClaims.

Variable OTTags : OTTagsT.

(** C4. Baggage is updated by copy: [set_baggage_item] makes the span refer
    to a new context, with the same underlying context and a new baggage that
    is the old one with [key] set to [value]; the old context and its baggage
    are still in the heap as they were, so a reference to the old context
    reads the old baggage. *)
Theorem baggage_copy_on_write (w : world) (self : loc) (s : Span) (d : DatadogSpan)
    (c : SpanContext) (b : dict) (key : string) (value : pyval) :
  heap w !! self = Some (OSpan s) ->
  heap w !! _dd_span s = Some (ODDSpan d) ->
  heap w !! _context s = Some (OContext c) ->
  heap w !! baggage c = Some (ODict b) ->
  lock s = false ->
  exists w' new_ctx new_bag,
    Span_set_baggage_item OTTags self key value w = Return (VRef self) w' /\
    heap w' !! self = Some (OSpan (set_context new_ctx s)) /\
    new_ctx <> _context s /\
    new_bag <> baggage c /\
    heap w' !! new_ctx
    = Some (OContext {| _dd_context := _dd_context c; baggage := new_bag |}) /\
    heap w' !! new_bag = Some (ODict (dict_set key value b)) /\
    (forall k, dict_get k (dict_set key value b)
               = if bool_decide (key = k) then Some value else dict_get k b) /\
    heap w' !! _context s = Some (OContext c) /\
    heap w' !! baggage c = Some (ODict b) /\
    (forall k, SpanContext_get_baggage_item (_context s) k w'
               = Return (default VNone (dict_get k b)) w') /\
    (forall k, Span_get_baggage_item self k w'
               = Return (default VNone (dict_get k (dict_set key value b))) w').
Proof.
  intros Hs Hd Hc Hb Hl.
  pose proof (lookup_lt_Some _ _ _ Hc) as Hlt1.
  pose proof (lookup_lt_Some _ _ _ Hb) as Hlt2.
  destruct (baggage_set_new OTTags w self s d c b key value Hs Hd) as [Hnc Hnb].
  pose proof (baggage_set_self OTTags w self s d c b key value Hs) as Hs'.
  assert (heap (baggage_set OTTags w self s d c b key value) !! _context s
          = Some (OContext c)) as Hc'
    by (apply baggage_set_frame; [done| |]; congruence).
  assert (heap (baggage_set OTTags w self s d c b key value) !! baggage c
          = Some (ODict b)) as Hb'
    by (apply baggage_set_frame; [done| |]; congruence).
  exists (baggage_set OTTags w self s d c b key value), (S (length (heap w))),
    (length (heap w)).
  split; [by apply Span_set_baggage_item_eq|].
  split; [done|].
  split; [lia|].
  split; [lia|].
  split; [done|].
  split; [done|].
  split; [intros k; apply dict_get_set|].
  split; [done|].
  split; [done|].
  split.
  - intros k. by apply SpanContext_get_baggage_item_eq with c.
  - intros k. eapply Span_get_baggage_item_eq; [exact Hs'|exact Hnc|exact Hnb].
Qed.

(** C9, as the code has it. [set_baggage_item] hands the pair to
    [Span.set_tag] and returns the span itself: a key that is not reserved
    becomes a generic tag of the underlying span, the span-type key goes to
    the [span_type] field and the HTTP-URL and database-statement keys to the
    [resource] field; the span's baggage then has [value] under [key]. *)
Theorem baggage_item_through_set_tag (w : world) (self : loc) (s : Span)
    (d : DatadogSpan) (c : SpanContext) (b : dict) (key : string) (value : pyval) :
  heap w !! self = Some (OSpan s) ->
  heap w !! _dd_span s = Some (ODDSpan d) ->
  heap w !! _context s = Some (OContext c) ->
  heap w !! baggage c = Some (ODict b) ->
  lock s = false ->
  exists w' d',
    Span_set_baggage_item OTTags self key value w = Return (VRef self) w' /\
    heap w' !! _dd_span s = Some (ODDSpan d') /\
    (~ reserved OTTags key -> d' = tag_set key value d) /\
    (key = SPAN_TYPE OTTags -> d' = set_span_type value d) /\
    (key <> SPAN_TYPE OTTags -> key = HTTP_URL OTTags \/ key = DB_STATEMENT OTTags ->
     d' = set_resource value d) /\
    Span_get_baggage_item self key w' = Return value w'.
Proof.
  intros Hs Hd Hc Hb Hl.
  destruct (baggage_set_new OTTags w self s d c b key value Hs Hd) as [Hnc Hnb].
  pose proof (baggage_set_self OTTags w self s d c b key value Hs) as Hs'.
  exists (baggage_set OTTags w self s d c b key value), (routed OTTags key value d).
  split; [by apply Span_set_baggage_item_eq|].
  split; [by apply baggage_set_ddspan|].
  split; [apply routed_not_reserved|].
  split.
  { intros ->. unfold routed. by rewrite bool_decide_true. }
  split.
  { intros H1 H2. unfold routed. rewrite bool_decide_false by done.
    destruct H2 as [->| ->].
    - by rewrite bool_decide_true.
    - rewrite (bool_decide_true (DB_STATEMENT OTTags = DB_STATEMENT OTTags)) by done.
      by rewrite orb_true_r. }
  rewrite (Span_get_baggage_item_eq _ _ _ _ _ key Hs' Hnc Hnb).
  by rewrite dict_get_set, bool_decide_true.
Qed.

End BaggageClaims.

Lemma baggage_copy_on_write_witness :
  heap world_span !! 3%nat = Some (OContext context_example) /\
  heap world_span !! 2%nat = Some (ODict []) /\
  exists w' new_ctx new_bag,
    Span_set_baggage_item tags_example 5%nat "b" (VInt 2) world_span
    = Return (VRef 5%nat) w' /\
    heap w' !! 5%nat = Some (OSpan (set_context new_ctx span_example)) /\
    new_ctx <> 3%nat /\
    new_bag <> 2%nat /\
    heap w' !! new_ctx
    = Some (OContext {| _dd_context := VRef 1%nat; baggage := new_bag |}) /\
    heap w' !! new_bag = Some (ODict [("b", VInt 2)]) /\
    (forall k, dict_get k (dict_set "b" (VInt 2) [])
               = if bool_decide ("b" = k) then Some (VInt 2) else dict_get k []) /\
    heap w' !! 3%nat = Some (OContext context_example) /\
    heap w' !! 2%nat = Some (ODict []) /\
    (forall k, SpanContext_get_baggage_item 3%nat k w'
               = Return (default VNone (dict_get k [])) w') /\
    (forall k, Span_get_baggage_item 5%nat k w'
               = Return (default VNone (dict_get k (dict_set "b" (VInt 2) []))) w').
Proof.
  split; [reflexivity|]. split; [reflexivity|].
  apply (baggage_copy_on_write tags_example world_span 5%nat span_example
           ddspan_example context_example [] "b" (VInt 2)); reflexivity.
Defined.

Lemma baggage_item_through_set_tag_witness :
  exists w' d',
    Span_set_baggage_item tags_example 5%nat "custom.key" (VInt 42) world_span
    = Return (VRef 5%nat) w' /\
    heap w' !! 4%nat = Some (ODDSpan d') /\
    (~ reserved tags_example "custom.key" ->
     d' = tag_set "custom.key" (VInt 42) ddspan_example) /\
    ("custom.key" = SPAN_TYPE tags_example ->
     d' = set_span_type (VInt 42) ddspan_example) /\
    ("custom.key" <> SPAN_TYPE tags_example ->
     "custom.key" = HTTP_URL tags_example \/ "custom.key" = DB_STATEMENT tags_example ->
     d' = set_resource (VInt 42) ddspan_example) /\
    Span_get_baggage_item 5%nat "custom.key" w' = Return (VInt 42) w'.
Proof.
  apply (baggage_item_through_set_tag tags_example world_span 5%nat span_example
           ddspan_example context_example [] "custom.key" (VInt 42)); reflexivity.
Defined.

(** C9 as stated fails for a reserved key: after
    [set_baggage_item("span.kind", "client")] the baggage has the item, but
    the underlying span has no generic tag "span.kind" and its [set_tag] was
    not called; the value went to its [span_type] field. *)
Lemma baggage_item_not_a_generic_tag :
  Span_set_baggage_item tags_example 5%nat "span.kind" (VStr "client") world_span
  = Return (VRef 5%nat) world_kind_baggage /\
  Span_get_baggage_item 5%nat "span.kind" world_kind_baggage
  = Return (VStr "client") world_kind_baggage /\
  Span_get_tag 5%nat "span.kind" world_kind_baggage = Return VNone world_kind_baggage /\
  (exists d', heap world_kind_baggage !! 4%nat = Some (ODDSpan d') /\
              meta d' = [] /\ trace d' = [] /\ span_type d' = VStr "client").
Proof.
  split; [reflexivity|]. split; [reflexivity|]. split; [reflexivity|].
  eexists. split; [reflexivity|]. by repeat split.
Qed.

(** ** [Span.__init__] with a parent context *)

Lemma alloc_eq (w : world) (o : obj) :
  alloc o w = Return (length (heap w)) (ext o w).
Proof. reflexivity. Qed.

Lemma Span_init_child_eq (w : world) (tracer p : loc) (t : pyval) (pc : SpanContext)
    (b : dict) (operation_name : pyval) :
  heap w !! tracer = Some (OTracer t) ->
  heap w !! p = Some (OContext pc) ->
  heap w !! baggage pc = Some (ODict b) ->
  Span_init tracer (Some p) operation_name w
  = Return (S (S (S (length (heap w))))) (child_made w tracer t pc b operation_name).
Proof.
  intros Ht Hp Hb. unfold Span_init, SpanContext_init, bind.
  rewrite (load_context_eq _ _ _ Hp). unfold ret at 1.
  rewrite (load_dict_eq _ _ _ Hb), !alloc_eq, !length_ext.
  set (w1 := ext (ODict b) w).
  set (w2 := ext (OContext _) w1).
  assert (heap w2 !! tracer = Some (OTracer t)) as Ht2
    by (by apply lookup_ext_old, lookup_ext_old).
  rewrite (load_tracer_eq _ _ _ Ht2).
  assert (heap w2 !! S (length (heap w))
          = Some (OContext {| _dd_context := _dd_context pc;
                              baggage := length (heap w) |})) as Hc2.
  { unfold w2. rewrite <- (length_ext w (ODict b)). apply lookup_ext_new. }
  rewrite (load_context_eq _ _ _ Hc2).
  unfold DatadogSpan_init. rewrite !alloc_eq, !length_ext.
  assert (length (heap w2) = S (S (length (heap w)))) as ->
    by (unfold w2, w1; by rewrite !length_ext).
  reflexivity.
Qed.

(** the four objects of the child, and what was there before *)
Lemma child_made_lookup (w : world) (tracer : loc) (t : pyval) (pc : SpanContext)
    (b : dict) (operation_name : pyval) :
  let n := length (heap w) in
  let w' := child_made w tracer t pc b operation_name in
  heap w' !! n = Some (ODict b) /\
  heap w' !! S n = Some (OContext {| _dd_context := _dd_context pc; baggage := n |}) /\
  heap w' !! S (S n) = Some (ODDSpan (new_ddspan t operation_name (_dd_context pc))) /\
  heap w' !! S (S (S n)) = Some (OSpan (new_span tracer (S n) (S (S n)))) /\
  (forall l o, heap w !! l = Some o -> heap w' !! l = Some o).
Proof.
  intros n w'. unfold w', child_made. fold n.
  set (w1 := ext (ODict b) w).
  set (w2 := ext (OContext {| _dd_context := _dd_context pc; baggage := n |}) w1).
  set (w3 := ext (ODDSpan (new_ddspan t operation_name (_dd_context pc))) w2).
  assert (length (heap w1) = S n) as L1 by apply length_ext.
  assert (length (heap w2) = S (S n)) as L2 by (unfold w2; by rewrite length_ext, L1).
  assert (length (heap w3) = S (S (S n))) as L3 by (unfold w3; by rewrite length_ext, L2).
  assert (heap w1 !! n = Some (ODict b)) as H1 by apply lookup_ext_new.
  assert (heap w2 !! S n = Some (OContext {| _dd_context := _dd_context pc; baggage := n |}))
    as H2 by (rewrite <- L1; apply lookup_ext_new).
  assert (heap w3 !! S (S n)
          = Some (ODDSpan (new_ddspan t operation_name (_dd_context pc))))
    as H3 by (rewrite <- L2; apply lookup_ext_new).
  split; [by do 3 apply lookup_ext_old|].
  split; [by do 2 apply lookup_ext_old|].
  split; [by apply lookup_ext_old|].
  split; [rewrite <- L3; apply lookup_ext_new|].
  intros l o Hl. by do 4 apply lookup_ext_old.
Qed.

Section CloneClaim.

Variable OTTags : OTTagsT.

(** C8. A span made from a parent context gets a context of its own, with
    the parent's underlying context and a copy of the parent's baggage: the
    child reads the parent's baggage, a later [set_baggage_item] on the child
    leaves the parent context and its baggage as they were, and one on a span
    that holds the parent context leaves the child's as they were. *)
Theorem child_context_cloned (w : world) (tracer p : loc) (t : pyval)
    (pc : SpanContext) (b : dict) (operation_name : pyval) :
  heap w !! tracer = Some (OTracer t) ->
  heap w !! p = Some (OContext pc) ->
  heap w !! baggage pc = Some (ODict b) ->
  exists w' child s' c',
    Span_init tracer (Some p) operation_name w = Return child w' /\
    heap w' !! child = Some (OSpan s') /\
    heap w' !! _context s' = Some (OContext c') /\
    _context s' <> p /\
    _dd_context c' = _dd_context pc /\
    baggage c' <> baggage pc /\
    heap w' !! baggage c' = Some (ODict b) /\
    heap w' !! p = Some (OContext pc) /\
    heap w' !! baggage pc = Some (ODict b) /\
    (forall k, Span_get_baggage_item child k w'
               = Return (default VNone (dict_get k b)) w') /\
    (forall key value, exists w'',
        Span_set_baggage_item OTTags child key value w' = Return (VRef child) w'' /\
        heap w'' !! p = Some (OContext pc) /\
        heap w'' !! baggage pc = Some (ODict b) /\
        (forall k, SpanContext_get_baggage_item p k w''
                   = Return (default VNone (dict_get k b)) w'') /\
        Span_get_baggage_item child key w'' = Return value w'') /\
    (forall q sq dq key value,
        heap w' !! q = Some (OSpan sq) ->
        heap w' !! _dd_span sq = Some (ODDSpan dq) ->
        _context sq = p ->
        lock sq = false ->
        exists w'',
          Span_set_baggage_item OTTags q key value w' = Return (VRef q) w'' /\
          Span_get_baggage_item q key w'' = Return value w'' /\
          heap w'' !! child = Some (OSpan s') /\
          heap w'' !! _context s' = Some (OContext c') /\
          heap w'' !! baggage c' = Some (ODict b) /\
          (forall k, Span_get_baggage_item child k w''
                     = Return (default VNone (dict_get k b)) w'')).
Proof.
  intros Ht Hp Hb.
  pose proof (lookup_lt_Some _ _ _ Hp) as Hlt1.
  pose proof (lookup_lt_Some _ _ _ Hb) as Hlt2.
  destruct (child_made_lookup w tracer t pc b operation_name)
    as (Hn0 & Hn1 & Hn2 & Hn3 & Hold).
  set (n := length (heap w)) in *.
  set (w' := child_made w tracer t pc b operation_name) in *.
  set (sc := new_span tracer (S n) (S (S n))) in *.
  set (cc := {| _dd_context := _dd_context pc; baggage := n |}) in *.
  set (dc := new_ddspan t operation_name (_dd_context pc)) in *.
  exists w', (S (S (S n))), sc, cc.
  split; [by apply Span_init_child_eq|].
  split; [done|].
  split; [done|].
  split; [simpl; lia|].
  split; [done|].
  split; [simpl; lia|].
  split; [done|].
  split; [by apply Hold|].
  split; [by apply Hold|].
  split.
  { intros k. by apply Span_get_baggage_item_eq with sc cc. }
  split.
  - intros key value.
    exists (baggage_set OTTags w' (S (S (S n))) sc dc cc b key value).
    assert (heap (baggage_set OTTags w' (S (S (S n))) sc dc cc b key value) !! p
            = Some (OContext pc)) as Hp'.
    { apply baggage_set_frame; [by apply Hold| |]; simpl; lia. }
    assert (heap (baggage_set OTTags w' (S (S (S n))) sc dc cc b key value)
              !! baggage pc = Some (ODict b)) as Hb'.
    { apply baggage_set_frame; [by apply Hold| |]; simpl; lia. }
    split; [by apply Span_set_baggage_item_eq|].
    split; [done|].
    split; [done|].
    split; [intros k; by apply SpanContext_get_baggage_item_eq with pc|].
    destruct (baggage_set_new OTTags w' (S (S (S n))) sc dc cc b key value Hn3 Hn2)
      as [Hnc Hnb].
    pose proof (baggage_set_self OTTags w' (S (S (S n))) sc dc cc b key value Hn3)
      as Hs'.
    rewrite (Span_get_baggage_item_eq _ _ _ _ _ key Hs' Hnc Hnb).
    by rewrite dict_get_set, bool_decide_true.
  - intros q sq dq key value Hq Hdq Hcq Hlq.
    assert (heap w' !! _context sq = Some (OContext pc)) as Hcq'
      by (rewrite Hcq; by apply Hold).
    assert (heap w' !! baggage pc = Some (ODict b)) as Hbq' by (by apply Hold).
    assert (q <> S (S (S n))) as Hne.
    { intros E.
      assert (Some (OSpan sq) = Some (OSpan sc)) as Hx
        by (rewrite <- Hq, E; exact Hn3).
      inversion Hx as [Hsq]. rewrite Hsq in Hcq. simpl in Hcq. lia. }
    exists (baggage_set OTTags w' q sq dq pc b key value).
    split; [by apply Span_set_baggage_item_eq|].
    split.
    { destruct (baggage_set_new OTTags w' q sq dq pc b key value Hq Hdq)
        as [Hnc Hnb].
      pose proof (baggage_set_self OTTags w' q sq dq pc b key value Hq) as Hs'.
      rewrite (Span_get_baggage_item_eq _ _ _ _ _ key Hs' Hnc Hnb).
      by rewrite dict_get_set, bool_decide_true. }
    assert (heap (baggage_set OTTags w' q sq dq pc b key value) !! S (S (S n))
            = Some (OSpan sc)) as H3'.
    { apply baggage_set_frame; [done|by apply not_eq_sym|].
      eapply lookup_ne; [exact Hn3|exact Hdq|done]. }
    assert (heap (baggage_set OTTags w' q sq dq pc b key value) !! S n
            = Some (OContext cc)) as H1'.
    { apply baggage_set_frame; [done| |].
      - eapply lookup_ne; [exact Hn1|exact Hq|done].
      - eapply lookup_ne; [exact Hn1|exact Hdq|done]. }
    assert (heap (baggage_set OTTags w' q sq dq pc b key value) !! n
            = Some (ODict b)) as H0'.
    { apply baggage_set_frame; [done| |].
      - eapply lookup_ne; [exact Hn0|exact Hq|done].
      - eapply lookup_ne; [exact Hn0|exact Hdq|done]. }
    split; [done|].
    split; [done|].
    split; [done|].
    intros k. by apply Span_get_baggage_item_eq with sc cc.
Qed.

End CloneClaim.

Lemma child_context_cloned_witness :
  heap world_parent !! 0%nat = Some (OTracer (VStr "dd-tracer")) /\
  heap world_parent !! 7%nat = Some (OContext parent_context_example) /\
  heap world_parent !! 6%nat = Some (ODict [("x", VStr "y")]) /\
  exists w' child,
    Span_init 0%nat (Some 7%nat) (VStr "child") world_parent = Return child w' /\
    (forall k, Span_get_baggage_item child k w'
               = Return (default VNone (dict_get k [("x", VStr "y")])) w') /\
    (forall key value, exists w'',
        Span_set_baggage_item tags_example child key value w'
        = Return (VRef child) w'' /\
        heap w'' !! 6%nat = Some (ODict [("x", VStr "y")])).
Proof.
  split; [reflexivity|]. split; [reflexivity|]. split; [reflexivity|].
  destruct (child_context_cloned tags_example world_parent 0%nat 7%nat
              (VStr "dd-tracer") parent_context_example [("x", VStr "y")]
              (VStr "child") eq_refl eq_refl eq_refl)
    as (w' & child & s' & c' & Hinit & _ & _ & _ & _ & _ & _ & _ & _ & Hget & Hset & _).
  exists w', child. split; [exact Hinit|]. split; [exact Hget|].
  intros key value. destruct (Hset key value) as (w'' & H1 & _ & H3 & _).
  exists w''. split; [exact H1|exact H3].
Defined.

(** ** After [finish] *)

Lemma Span_set_operation_name_eq (w : world) (self : loc) (s : Span)
    (d : DatadogSpan) (operation_name : pyval) :
  heap w !! self = Some (OSpan s) -> heap w !! _dd_span s = Some (ODDSpan d) ->
  Span_set_operation_name self operation_name w
  = Return tt (upd (_dd_span s) (ODDSpan (set_name operation_name d)) w).
Proof.
  intros Hs Hd. unfold Span_set_operation_name, bind.
  by rewrite (load_span_eq _ _ _ Hs), (update_ddspan_eq _ _ _ _ Hd).
Qed.

Section LatchClaim.

Variable OTTags : OTTagsT.
Variable errors : errorsT.

(** C5, as the code has it. Nothing clears the latch, and a [finish] after
    the first changes nothing; but [set_tag], [set_operation_name], [log_kv]
    and [set_baggage_item] do not test the latch: on a finished span they
    return as usual, leave the latch set, and write to the underlying span,
    to the log and to the context as they do before [finish]. *)
Theorem latch_guards_only_finish (w : world) (self : loc) (s : Span)
    (d : DatadogSpan) (c : SpanContext) (b : dict) (key_values : loc) (items : dict) :
  heap w !! self = Some (OSpan s) ->
  heap w !! _dd_span s = Some (ODDSpan d) ->
  heap w !! _context s = Some (OContext c) ->
  heap w !! baggage c = Some (ODict b) ->
  heap w !! key_values = Some (ODict items) ->
  lock s = false ->
  finished s = true ->
  (forall t, Span_finish self t w = Return tt w) /\
  (forall key value, exists w',
      Span_set_tag OTTags self key value w = Return tt w' /\
      heap w' !! self = Some (OSpan s) /\
      heap w' !! _dd_span s = Some (ODDSpan (routed OTTags key value d))) /\
  (forall operation_name, exists w',
      Span_set_operation_name self operation_name w = Return tt w' /\
      heap w' !! self = Some (OSpan s) /\
      heap w' !! _dd_span s = Some (ODDSpan (set_name operation_name d))) /\
  (forall timestamp, exists w' s',
      Span_log_kv OTTags errors self key_values timestamp w = Return (VRef self) w' /\
      heap w' !! self = Some (OSpan s') /\
      finished s' = true /\
      records (log s')
      = (records (log s)
         ++ [{| record := VRef key_values;
                timestamp := py_or timestamp (clock w) |}])%list /\
      heap w' !! _dd_span s = Some (ODDSpan (items_effect OTTags errors items d))) /\
  (forall key value, exists w' s',
      Span_set_baggage_item OTTags self key value w = Return (VRef self) w' /\
      heap w' !! self = Some (OSpan s') /\
      finished s' = true /\
      _context s' <> _context s /\
      Span_get_baggage_item self key w' = Return value w' /\
      heap w' !! _dd_span s = Some (ODDSpan (routed OTTags key value d))).
Proof.
  intros Hs Hd Hc Hb Hk Hl Hf.
  pose proof (span_ddspan_ne _ _ _ _ _ Hs Hd) as Hne.
  split; [intros t; by apply Span_finish_finished with s|].
  split.
  { intros key value. eexists. split; [by apply Span_set_tag_eq|].
    split; [by rewrite lookup_upd_ne|]. apply lookup_upd_eq. by rewrite Hd. }
  split.
  { intros operation_name. eexists.
    split; [by apply Span_set_operation_name_eq|].
    split; [by rewrite lookup_upd_ne|]. apply lookup_upd_eq. by rewrite Hd. }
  split.
  { intros timestamp. eexists _, _.
    split; [by apply Span_log_kv_eq|].
    split.
    { rewrite lookup_upd_ne by done. apply lookup_upd_eq. by rewrite Hs. }
    split; [done|]. split; [done|].
    apply lookup_upd_eq. rewrite lookup_upd_ne by done. by rewrite Hd. }
  intros key value.
  destruct (baggage_set_new OTTags w self s d c b key value Hs Hd) as [Hnc Hnb].
  pose proof (baggage_set_self OTTags w self s d c b key value Hs) as Hs'.
  pose proof (lookup_lt_Some _ _ _ Hc) as Hlt.
  exists (baggage_set OTTags w self s d c b key value),
    (set_context (S (length (heap w))) s).
  split; [by apply Span_set_baggage_item_eq|].
  split; [done|].
  split; [done|].
  split; [simpl; lia|].
  split; [|by apply baggage_set_ddspan].
  rewrite (Span_get_baggage_item_eq _ _ _ _ _ key Hs' Hnc Hnb).
  by rewrite dict_get_set, bool_decide_true.
Qed.

End LatchClaim.

Lemma latch_guards_only_finish_witness :
  heap world_finished_items !! 5%nat = Some (OSpan span_finished_example) /\
  heap world_finished_items !! 4%nat = Some (ODDSpan ddspan_finished_example) /\
  finished span_finished_example = true /\
  (forall t, Span_finish 5%nat t world_finished_items = Return tt world_finished_items) /\
  (forall key value, exists w',
      Span_set_tag tags_example 5%nat key value world_finished_items = Return tt w' /\
      heap w' !! 5%nat = Some (OSpan span_finished_example) /\
      heap w' !! 4%nat
      = Some (ODDSpan (routed tags_example key value ddspan_finished_example))).
Proof.
  split; [reflexivity|]. split; [reflexivity|]. split; [reflexivity|].
  destruct (latch_guards_only_finish tags_example errors_example
              world_finished_items 5%nat span_finished_example
              ddspan_finished_example context_example [] 6%nat items_example
              eq_refl eq_refl eq_refl eq_refl eq_refl eq_refl eq_refl)
    as (H1 & H2 & _).
  split; [exact H1|exact H2].
Defined.

(** C5 as stated fails: on a span that is finished, [set_tag],
    [set_operation_name], [log_kv] and [set_baggage_item] each change what is
    recorded for the span. *)
Lemma finished_span_still_written :
  (exists s, heap world_finished_items !! 5%nat = Some (OSpan s) /\ finished s = true) /\
  recorded_state
    (after (Span_set_tag tags_example 5%nat "custom.key" (VInt 42)) world_finished_items)
    5%nat
  <> recorded_state world_finished_items 5%nat /\
  recorded_state
    (after (Span_set_operation_name 5%nat (VStr "renamed")) world_finished_items) 5%nat
  <> recorded_state world_finished_items 5%nat /\
  recorded_state
    (after (Span_log_kv tags_example errors_example 5%nat 6%nat VNone)
       world_finished_items) 5%nat
  <> recorded_state world_finished_items 5%nat /\
  recorded_state
    (after (Span_set_baggage_item tags_example 5%nat "b" (VInt 2)) world_finished_items)
    5%nat
  <> recorded_state world_finished_items 5%nat.
Proof.
  split; [by eexists|].
  repeat split; vm_compute; discriminate.
Qed.

(** ** Concurrent writers of the baggage *)

Section ThreadFacts.

Variable OTTags : OTTagsT.

(** a thread that runs alone, statement by statement, does what
    [Span.set_baggage_item] does *)
Lemma set_baggage_item_steps (w : world) (self : loc) (key : string) (value : pyval) :
  (run OTTags [0; 0; 0; 0; 0]%nat
     [{| th_self := self; th_key := key; th_value := value; th_pc := AtRead |}] ;;;
   ret (VRef self)) w
  = Span_set_baggage_item OTTags self key value w.
Proof.
  unfold Span_set_baggage_item, bind, ret. simpl.
  unfold thread_step at 1. simpl. unfold bind, ret.
  destruct (Span_context self w) as [ctx w1|e w1|w1]; [|done|done].
  destruct (SpanContext_with_baggage_item ctx key value w1) as [nc w2|e w2|w2];
    [|done|done].
  unfold thread_step at 1. simpl. unfold bind, ret.
  destruct (Span_set_tag OTTags self key value w2) as [[] w3|e w3|w3]; [|done|done].
  unfold thread_step at 1. simpl. unfold bind, ret.
  destruct (Lock_acquire self w3) as [[] w4|e w4|w4]; [|done|done].
  unfold thread_step at 1. simpl. unfold bind, ret.
  destruct (update_span self (set_context nc) w4) as [[] w5|e w5|w5]; [|done|done].
  unfold thread_step at 1. simpl. unfold bind, ret.
  destruct (Lock_release self w5) as [[] w6|e w6|w6]; done.
Qed.

End ThreadFacts.

(** C10 fails on the code. Two threads set the distinct keys "a" and "b" on
    the same span; both build their new context from the same old one, before
    either swaps, since the lock is taken for the swap only. Both calls
    return, and the final baggage has "b" but not "a". *)
Theorem concurrent_writers_lose_update :
  run tags_example schedule_lost_update [writer_a; writer_b] world_span
  = Return [at_pc AtReturn writer_a; at_pc AtReturn writer_b] world_lost_update /\
  Span_get_baggage_item 5%nat "a" world_lost_update = Return VNone world_lost_update /\
  Span_get_baggage_item 5%nat "b" world_lost_update
  = Return (VInt 2) world_lost_update.
Proof. repeat split. Qed.

(** when the two calls run one after the other, both keys are there *)
Lemma sequential_writers_keep_both :
  Span_get_baggage_item 5%nat "a"
    (after (run tags_example [0; 0; 0; 0; 0; 1; 1; 1; 1; 1]%nat [writer_a; writer_b])
       world_span)
  = Return (VInt 1)
      (after (run tags_example [0; 0; 0; 0; 0; 1; 1; 1; 1; 1]%nat [writer_a; writer_b])
         world_span) /\
  Span_get_baggage_item 5%nat "b"
    (after (run tags_example [0; 0; 0; 0; 0; 1; 1; 1; 1; 1]%nat [writer_a; writer_b])
       world_span)
  = Return (VInt 2)
      (after (run tags_example [0; 0; 0; 0; 0; 1; 1; 1; 1; 1]%nat [writer_a; writer_b])
         world_span).
Proof. split; reflexivity. Qed.

(** ** The concrete worlds are worlds of the adapter *)

Example world_span_made :
  Span_init 0%nat None (VStr "op") world_tracer = Return 5%nat world_span.
Proof. reflexivity. Qed.

Example world_finished_made :
  Span_finish 5%nat VNone world_span = Return tt world_finished.
Proof. reflexivity. Qed.

Example world_parent_made :
  Span_set_baggage_item tags_example 5%nat "x" (VStr "y") world_span
  = Return (VRef 5%nat) world_parent.
Proof. reflexivity. Qed.

(** * Further properties of the adapter *)

(** ** Folds that remember the last write *)

Lemma fold_last {A} (obs : A -> option pyval) (f : A -> string * pyval -> A)
    (P : string * pyval -> bool) :
  (forall a kv, obs (f a kv) = if P kv then Some kv.2 else obs a) ->
  forall items a,
    obs (fold_left f items a)
    = from_option Some (obs a)
        (fold_left (fun acc kv => if P kv then Some kv.2 else acc) items None).
Proof.
  intros Hf items. induction items as [|x items IH] using rev_ind; intros a.
  - done.
  - rewrite !fold_left_app. simpl. rewrite Hf. destruct (P x); [done|apply IH].
Qed.

Lemma last_set_NoDup (k : string) (b : dict) :
  NoDup b.*1 -> last_set k b = dict_get k b.
Proof.
  unfold last_set. induction b as [|[k0 v0] b IH] using rev_ind; [done|].
  rewrite fmap_app, NoDup_app. simpl. intros (Hnd & Hdis & _).
  rewrite fold_left_app. simpl.
  assert (forall b' : dict, dict_get k (b' ++ [(k0, v0)])%list
            = match dict_get k b' with
              | Some v => Some v
              | None => if bool_decide (k0 = k) then Some v0 else None
              end) as Hget.
  { induction b' as [|[k1 v1] b' IH']; simpl; [done|].
    by destruct (bool_decide (k1 = k)). }
  rewrite Hget. case_bool_decide as Hk.
  - subst k0. destruct (dict_get k b) as [v|] eqn:Hg; [|done].
    exfalso. apply (Hdis k); [|apply list_elem_of_here].
    clear -Hg. induction b as [|[k1 v1] b IHb]; simpl in *; [done|].
    case_bool_decide; [subst; apply list_elem_of_here|].
    apply list_elem_of_further. by apply IHb.
  - rewrite (IH Hnd). by destruct (dict_get k b).
Qed.

(** ** The error flag and the error tags after [log_kv] *)

Section LogFacts.

Variable OTTags : OTTagsT.
Variable errors : errorsT.

Lemma error_routed (key : string) (value : pyval) (d : DatadogSpan) :
  error (routed OTTags key value d) = error d.
Proof.
  unfold routed. destruct (bool_decide (key = SPAN_TYPE OTTags)); [done|].
  by destruct (bool_decide (key = HTTP_URL OTTags) || bool_decide (key = DB_STATEMENT OTTags)).
Qed.

Lemma error_items_effect (items : dict) (d : DatadogSpan) :
  error (items_effect OTTags errors items d)
  = if has_error_event items then VInt 1 else error d.
Proof.
  unfold items_effect. revert d.
  induction items as [|[key val] items IH]; intros d; [done|].
  simpl. rewrite IH. unfold item_effect.
  destruct (bool_decide (key = "event") && eq_str val "error"); simpl.
  { rewrite error_routed. simpl. by destruct (has_error_event items). }
  destruct (bool_decide (key = "error") || bool_decide (key = "error.object"));
    [by rewrite error_routed|].
  destruct (bool_decide (key = "message")); [by rewrite error_routed|].
  destruct (bool_decide (key = "stack")); [by rewrite error_routed|done].
Qed.

(** X1. [log_kv] sets the error flag of the underlying span to 1 when the
    mapping has the item "event": "error", and leaves the flag as it was
    otherwise: no mapping clears it. This holds whatever the reserved keys
    and the error tag names are. *)
Theorem log_kv_error_flag (w : world) (self : loc) (s : Span) (d : DatadogSpan)
    (key_values : loc) (items : dict) (timestamp : pyval) :
  heap w !! self = Some (OSpan s) ->
  heap w !! _dd_span s = Some (ODDSpan d) ->
  heap w !! key_values = Some (ODict items) ->
  exists w' d',
    Span_log_kv OTTags errors self key_values timestamp w = Return (VRef self) w' /\
    heap w' !! _dd_span s = Some (ODDSpan d') /\
    error d' = if has_error_event items then VInt 1 else error d.
Proof.
  intros Hs Hd Hk. pose proof (span_ddspan_ne _ _ _ _ _ Hs Hd) as Hne.
  eexists _, _. split; [by apply Span_log_kv_eq|].
  split; [|apply error_items_effect].
  apply lookup_upd_eq. rewrite lookup_upd_ne by done. by rewrite Hd.
Qed.

Lemma Span_get_tag_eq (w : world) (self : loc) (s : Span) (d : DatadogSpan)
    (key : string) :
  heap w !! self = Some (OSpan s) -> heap w !! _dd_span s = Some (ODDSpan d) ->
  Span_get_tag self key w = Return (default VNone (dict_get key (meta d))) w.
Proof.
  intros Hs Hd. unfold Span_get_tag, DatadogSpan_get_tag, bind.
  by rewrite (load_span_eq _ _ _ Hs), (load_ddspan_eq _ _ _ Hd).
Qed.

Lemma meta_tag_set (k key : string) (value : pyval) (d : DatadogSpan) :
  dict_get k (meta (tag_set key value d))
  = if bool_decide (key = k) then Some value else dict_get k (meta d).
Proof. unfold tag_set. simpl. apply dict_get_set. Qed.

Lemma meta_routed (k key : string) (value : pyval) (d : DatadogSpan) :
  dict_get k (meta (routed OTTags key value d))
  = if bool_decide (key = k /\ ~ reserved OTTags key) then Some value
    else dict_get k (meta d).
Proof.
  unfold routed, reserved.
  destruct (bool_decide (key = SPAN_TYPE OTTags)) eqn:H1.
  { apply bool_decide_eq_true in H1. simpl.
    rewrite bool_decide_false; [done|]. intros [_ H]. apply H. by left. }
  destruct (bool_decide (key = HTTP_URL OTTags) || bool_decide (key = DB_STATEMENT OTTags))
    eqn:H2.
  { simpl. rewrite bool_decide_false; [done|]. intros [_ H]. apply H.
    apply orb_true_iff in H2 as [H2|H2]; apply bool_decide_eq_true in H2; auto. }
  apply orb_false_iff in H2 as [H2 H3].
  apply bool_decide_eq_false in H1, H2, H3.
  rewrite meta_tag_set.
  destruct (decide (key = k)) as [->|Hk].
  - rewrite !bool_decide_true; [done| |done]. split; [done|]. intuition.
  - rewrite !bool_decide_false; [done| |done]. intuition.
Qed.

Lemma rule_of_keys (key : string) (val : pyval) :
  (rule_of key val = ErrorType <-> key ∈ ["error"; "error.object"]) /\
  (rule_of key val = ErrorMessage <-> key ∈ ["message"]) /\
  (rule_of key val = ErrorStack <-> key ∈ ["stack"]).
Proof.
  unfold rule_of. rewrite !elem_of_cons, !elem_of_nil.
  repeat case_bool_decide; (repeat split; intros H'; try done);
    try (exfalso; intuition congruence); intuition congruence.
Qed.

Lemma meta_translated (T : string) (keys : list string) (r : log_rule)
    (items : dict) (d : DatadogSpan) :
  (forall key val, rule_of key val = r <-> key ∈ keys) ->
  (forall r' val d0,
     dict_get T (meta (apply_rule errors r' val d0))
     = if bool_decide (r' = r) then Some val else dict_get T (meta d0)) ->
  dict_get T (meta (translated errors items d))
  = from_option Some (dict_get T (meta d)) (last_of keys items).
Proof.
  intros Hr Ha. unfold translated, last_of.
  apply (fold_last (fun d => dict_get T (meta d))
           (fun d kv => apply_rule errors (rule_of kv.1 kv.2) kv.2 d)
           (fun kv => bool_decide (kv.1 ∈ keys))).
  intros a [k v]. simpl. rewrite Ha. destruct (Hr k v) as [H1 H2].
  repeat case_bool_decide; try done; exfalso; auto.
Qed.

(** X2. After [log_kv] the error-type tag has the value of the last item of
    the mapping, in its order, whose key is "error" or "error.object", the
    error-message tag that of the last "message" item and the error-stack
    tag that of the last "stack" item; a tag with no such item is as it was
    before. *)
Theorem log_kv_last_item_wins (w : world) (self : loc) (s : Span) (d : DatadogSpan)
    (key_values : loc) (items : dict) (timestamp : pyval) :
  heap w !! self = Some (OSpan s) ->
  heap w !! _dd_span s = Some (ODDSpan d) ->
  heap w !! key_values = Some (ODict items) ->
  ~ reserved OTTags "error" ->
  ~ reserved OTTags (ERROR_TYPE errors) ->
  ~ reserved OTTags (ERROR_MSG errors) ->
  ~ reserved OTTags (ERROR_STACK errors) ->
  NoDup ["error"; ERROR_TYPE errors; ERROR_MSG errors; ERROR_STACK errors] ->
  exists w',
    Span_log_kv OTTags errors self key_values timestamp w = Return (VRef self) w' /\
    Span_get_tag self (ERROR_TYPE errors) w'
    = Return (default VNone
                (from_option Some (dict_get (ERROR_TYPE errors) (meta d))
                   (last_of ["error"; "error.object"] items))) w' /\
    Span_get_tag self (ERROR_MSG errors) w'
    = Return (default VNone
                (from_option Some (dict_get (ERROR_MSG errors) (meta d))
                   (last_of ["message"] items))) w' /\
    Span_get_tag self (ERROR_STACK errors) w'
    = Return (default VNone
                (from_option Some (dict_get (ERROR_STACK errors) (meta d))
                   (last_of ["stack"] items))) w'.
Proof.
  intros Hs Hd Hk H1 H2 H3 H4 Hnd.
  pose proof (span_ddspan_ne _ _ _ _ _ Hs Hd) as Hne.
  inversion Hnd as [|x1 l1 Hn1 Hnd1]; subst.
  inversion Hnd1 as [|x2 l2 Hn2 Hnd2]; subst.
  inversion Hnd2 as [|x3 l3 Hn3 _]; subst.
  repeat rewrite not_elem_of_cons in Hn1.
  repeat rewrite not_elem_of_cons in Hn2.
  repeat rewrite not_elem_of_cons in Hn3.
  destruct Hn1 as (N1 & N2 & N3 & _), Hn2 as (N4 & N5 & _), Hn3 as (N6 & _).
  eexists. split; [by apply Span_log_kv_eq|].
  rewrite items_effect_translated by done.
  match goal with
  | |- context [upd (_dd_span s) (ODDSpan ?d1) (upd self (OSpan ?s1) w)] =>
      set (w' := upd (_dd_span s) (ODDSpan d1) (upd self (OSpan s1) w));
      assert (heap w' !! self = Some (OSpan s1)) as Hs'
        by (unfold w'; rewrite lookup_upd_ne by done;
            apply lookup_upd_eq; by rewrite Hs);
      assert (heap w' !! _dd_span s1 = Some (ODDSpan d1)) as Hd'
        by (unfold w'; apply lookup_upd_eq; rewrite lookup_upd_ne by done;
            by rewrite Hd)
  end.
  rewrite !(Span_get_tag_eq _ _ _ _ _ Hs' Hd').
  split; [|split]; do 2 f_equal.
  - apply meta_translated with ErrorType; [intros; apply rule_of_keys|].
    intros [] val d0; cbn [apply_rule]; rewrite ?meta_tag_set; simpl;
      repeat case_bool_decide; congruence.
  - apply meta_translated with ErrorMessage; [intros; apply rule_of_keys|].
    intros [] val d0; cbn [apply_rule]; rewrite ?meta_tag_set; simpl;
      repeat case_bool_decide; congruence.
  - apply meta_translated with ErrorStack; [intros; apply rule_of_keys|].
    intros [] val d0; cbn [apply_rule]; rewrite ?meta_tag_set; simpl;
      repeat case_bool_decide; congruence.
Qed.

(** ** What [log_kv] leaves in the log and on the underlying span *)

Lemma rule_of_MarkError (key : string) (val : pyval) :
  bool_decide (rule_of key val = MarkError)
  = bool_decide (key = "event") && eq_str val "error".
Proof.
  unfold rule_of.
  assert (bool_decide (key = "event") && eq_str val "error"
          = bool_decide (key = "event" /\ val = VStr "error")) as ->.
  { destruct val; simpl; repeat case_bool_decide; simpl; try done;
      exfalso; intuition congruence. }
  repeat case_bool_decide; done.
Qed.

Lemma translated_cons (key : string) (val : pyval) (items : dict) (d : DatadogSpan) :
  translated errors ((key, val) :: items) d
  = translated errors items (apply_rule errors (rule_of key val) val d).
Proof. reflexivity. Qed.

Lemma translated_fields (items : dict) (d : DatadogSpan) :
  name (translated errors items d) = name d /\
  span_type (translated errors items d) = span_type d /\
  resource (translated errors items d) = resource d /\
  context (translated errors items d) = context d /\
  exc_info (translated errors items d) = exc_info d /\
  dd_finished (translated errors items d) = dd_finished d.
Proof.
  revert d. induction items as [|[key val] items IH]; intros d; [done|].
  rewrite translated_cons.
  destruct (IH (apply_rule errors (rule_of key val) val d))
    as (-> & -> & -> & -> & -> & ->).
  by destruct (rule_of key val).
Qed.

Lemma error_translated (items : dict) (d : DatadogSpan) :
  error (translated errors items d)
  = if has_error_event items then VInt 1 else error d.
Proof.
  revert d. induction items as [|[key val] items IH]; intros d; [done|].
  rewrite translated_cons, IH. simpl. rewrite <- rule_of_MarkError.
  destruct (rule_of key val); simpl; by destruct (has_error_event items).
Qed.

Lemma trace_translated (items : dict) (d : DatadogSpan) :
  trace (translated errors items d) = (trace d ++ log_calls errors items)%list.
Proof.
  revert d. induction items as [|[key val] items IH]; intros d.
  - simpl. by rewrite app_nil_r.
  - rewrite translated_cons, IH. unfold log_calls. simpl.
    destruct (rule_of key val); simpl; by rewrite <- ?app_assoc.
Qed.

Lemma meta_error_translated (items : dict) (d : DatadogSpan) :
  "error" ∉ [ERROR_TYPE errors; ERROR_MSG errors; ERROR_STACK errors] ->
  dict_get "error" (meta (translated errors items d))
  = if has_error_event items then Some (VInt 1) else dict_get "error" (meta d).
Proof.
  intros Hn. repeat rewrite not_elem_of_cons in Hn. destruct Hn as (N1 & N2 & N3 & _).
  revert d. induction items as [|[key val] items IH]; intros d; [done|].
  rewrite translated_cons, IH. simpl. rewrite <- rule_of_MarkError.
  destruct (has_error_event items); [by rewrite orb_true_r|]. rewrite orb_false_r.
  destruct (rule_of key val); cbn [apply_rule]; rewrite ?meta_tag_set; simpl;
    repeat case_bool_decide; congruence.
Qed.

Lemma meta_other_translated (k : string) (items : dict) (d : DatadogSpan) :
  k ∉ ["error"; ERROR_TYPE errors; ERROR_MSG errors; ERROR_STACK errors] ->
  dict_get k (meta (translated errors items d)) = dict_get k (meta d).
Proof.
  intros Hn. repeat rewrite not_elem_of_cons in Hn.
  destruct Hn as (N1 & N2 & N3 & N4 & _).
  revert d. induction items as [|[key val] items IH]; intros d; [done|].
  rewrite translated_cons, IH.
  destruct (rule_of key val); cbn [apply_rule]; rewrite ?meta_tag_set; simpl;
    repeat case_bool_decide; congruence.
Qed.

Lemma list_getitem_last {A} (l : list A) (x : A) :
  list_getitem (l ++ [x]) (-1) = inr x.
Proof.
  destruct (list_getitem_nat (l ++ [x]) (length l) x) as [_ H].
  { by rewrite list_lookup_middle. }
  rewrite length_app in H. simpl in H.
  replace (Z.of_nat (length l) - Z.of_nat (length l + 1)) with (-1) in H by lia.
  exact H.
Qed.

(** C3. [log_kv] appends a record that holds the whole mapping, whatever
    its keys, then lets each item of the mapping take effect under the one
    rule it falls under ("event" with value "error": error flag and generic
    tag "error" set to 1; "error" or "error.object": error-type tag;
    "message": error-message tag; "stack": error-stack tag; any other item:
    nothing), and returns the span itself. Afterwards the log's last record
    is the new one, the error flag is 1 exactly when the mapping has "event":
    "error" (else as before), the underlying span has received one [set_tag]
    call per item that falls under a rule, in the mapping's order, its error
    tags hold the values of the items they come from, and its other tags and
    fields are as before. *)
Theorem log_kv_translation (w : world) (self : loc) (s : Span) (d : DatadogSpan)
    (key_values : loc) (items : dict) (timestamp : pyval) :
  heap w !! self = Some (OSpan s) ->
  heap w !! _dd_span s = Some (ODDSpan d) ->
  heap w !! key_values = Some (ODict items) ->
  ~ reserved OTTags "error" ->
  ~ reserved OTTags (ERROR_TYPE errors) ->
  ~ reserved OTTags (ERROR_MSG errors) ->
  ~ reserved OTTags (ERROR_STACK errors) ->
  exists w' s' d',
    Span_log_kv OTTags errors self key_values timestamp w = Return (VRef self) w' /\
    heap w' !! self = Some (OSpan s') /\
    records (log s')
    = (records (log s)
       ++ [{| record := VRef key_values;
              timestamp := py_or timestamp (clock w) |}])%list /\
    SpanLog_len (log s') = S (SpanLog_len (log s)) /\
    SpanLog_getitem (log s') (VInt (-1))
    = inr {| record := VRef key_values; timestamp := py_or timestamp (clock w) |} /\
    (_tracer s' = _tracer s /\ _context s' = _context s /\
     finished s' = finished s /\ lock s' = lock s /\ _dd_span s' = _dd_span s) /\
    heap w' !! key_values = Some (ODict items) /\
    heap w' !! _dd_span s = Some (ODDSpan d') /\
    d' = translated errors items d /\
    error d' = (if has_error_event items then VInt 1 else error d) /\
    trace d' = (trace d ++ log_calls errors items)%list /\
    (name d' = name d /\ span_type d' = span_type d /\ resource d' = resource d /\
     context d' = context d /\ exc_info d' = exc_info d /\
     dd_finished d' = dd_finished d) /\
    (NoDup ["error"; ERROR_TYPE errors; ERROR_MSG errors; ERROR_STACK errors] ->
     dict_get "error" (meta d')
     = (if has_error_event items then Some (VInt 1) else dict_get "error" (meta d)) /\
     dict_get (ERROR_TYPE errors) (meta d')
     = from_option Some (dict_get (ERROR_TYPE errors) (meta d))
         (last_of ["error"; "error.object"] items) /\
     dict_get (ERROR_MSG errors) (meta d')
     = from_option Some (dict_get (ERROR_MSG errors) (meta d))
         (last_of ["message"] items) /\
     dict_get (ERROR_STACK errors) (meta d')
     = from_option Some (dict_get (ERROR_STACK errors) (meta d))
         (last_of ["stack"] items) /\
     (forall k,
        k ∉ ["error"; ERROR_TYPE errors; ERROR_MSG errors; ERROR_STACK errors] ->
        dict_get k (meta d') = dict_get k (meta d))) /\
    (forall l, l <> self -> l <> _dd_span s -> heap w' !! l = heap w !! l).
Proof.
  intros Hs Hd Hk H1 H2 H3 H4.
  pose proof (span_ddspan_ne _ _ _ _ _ Hs Hd) as Hne.
  eexists _, _, (translated errors items d). split.
  { rewrite (Span_log_kv_eq _ _ _ _ _ _ _ _ _ Hs Hd Hk).
    by rewrite items_effect_translated. }
  split.
  { rewrite lookup_upd_ne by done. apply lookup_upd_eq. by rewrite Hs. }
  split; [done|].
  split; [unfold SpanLog_len; simpl; rewrite length_app; simpl; lia|].
  split; [apply list_getitem_last|].
  split; [done|].
  split.
  { rewrite !lookup_upd_ne; [done| |]; congruence. }
  split.
  { apply lookup_upd_eq. rewrite lookup_upd_ne by done. by rewrite Hd. }
  split; [done|].
  split; [apply error_translated|].
  split; [apply trace_translated|].
  split; [apply translated_fields|].
  split.
  { intros Hnd.
    inversion Hnd as [|x1 l1 Hn1 Hnd1]; subst.
    inversion Hnd1 as [|x2 l2 Hn2 Hnd2]; subst.
    inversion Hnd2 as [|x3 l3 Hn3 _]; subst.
    split; [by apply meta_error_translated|].
    repeat rewrite not_elem_of_cons in Hn1.
    repeat rewrite not_elem_of_cons in Hn2.
    repeat rewrite not_elem_of_cons in Hn3.
    destruct Hn1 as (N1 & N2 & N3 & _), Hn2 as (N4 & N5 & _), Hn3 as (N6 & _).
    split; [|split; [|split]].
    - apply meta_translated with ErrorType; [intros; apply rule_of_keys|].
      intros [] val d0; cbn [apply_rule]; rewrite ?meta_tag_set; simpl;
        repeat case_bool_decide; congruence.
    - apply meta_translated with ErrorMessage; [intros; apply rule_of_keys|].
      intros [] val d0; cbn [apply_rule]; rewrite ?meta_tag_set; simpl;
        repeat case_bool_decide; congruence.
    - apply meta_translated with ErrorStack; [intros; apply rule_of_keys|].
      intros [] val d0; cbn [apply_rule]; rewrite ?meta_tag_set; simpl;
        repeat case_bool_decide; congruence.
    - intros k Hk'. by apply meta_other_translated. }
  intros l Hl1 Hl2. by rewrite !lookup_upd_ne.
Qed.

End LogFacts.

Lemma log_kv_translation_witness :
  heap world_span_items !! 5%nat = Some (OSpan span_example) /\
  heap world_span_items !! 4%nat = Some (ODDSpan ddspan_example) /\
  heap world_span_items !! 6%nat = Some (ODict items_example) /\
  exists w' s' d',
    Span_log_kv tags_example errors_example 5%nat 6%nat VNone world_span_items
    = Return (VRef 5%nat) w' /\
    heap w' !! 5%nat = Some (OSpan s') /\
    records (log s') = [{| record := VRef 6%nat; timestamp := VFloat 3 2 |}] /\
    SpanLog_getitem (log s') (VInt 0)
    = inr {| record := VRef 6%nat; timestamp := VFloat 3 2 |} /\
    heap w' !! 6%nat = Some (ODict items_example) /\
    heap w' !! 4%nat = Some (ODDSpan d') /\
    error d' = VInt 1 /\
    trace d' = [CallSetTag "error" (VInt 1); CallSetTag "error.msg" (VStr "oops")] /\
    dict_get "error" (meta d') = Some (VInt 1) /\
    dict_get "error.msg" (meta d') = Some (VStr "oops") /\
    dict_get "error.type" (meta d') = None /\
    dict_get "custom" (meta d') = None.
Proof.
  split; [reflexivity|]. split; [reflexivity|]. split; [reflexivity|].
  destruct (log_kv_translation tags_example errors_example world_span_items 5%nat
              span_example ddspan_example 6%nat items_example VNone
              eq_refl eq_refl eq_refl)
    as (w' & s' & d' & Hrun & Hs' & Hrec & _ & Hlast & _ & Hk & Hd' & _ & Herr
        & Htr & _ & Hmeta & _);
    try (unfold reserved; simpl; intuition discriminate).
  destruct Hmeta as (M1 & M2 & M3 & _ & M5).
  { repeat (apply NoDup_cons_2;
            [rewrite ?not_elem_of_cons, ?elem_of_nil; simpl; intuition discriminate|]).
    apply NoDup_nil_2. }
  exists w', s', d'. split; [exact Hrun|]. split; [exact Hs'|].
  split; [exact Hrec|].
  split; [unfold SpanLog_getitem; rewrite Hrec; reflexivity|].
  split; [exact Hk|]. split; [exact Hd'|]. split; [exact Herr|].
  split; [exact Htr|]. split; [exact M1|]. split; [exact M3|].
  split; [exact M2|].
  apply (M5 "custom").
  rewrite ?not_elem_of_cons, ?elem_of_nil. simpl. intuition discriminate.
Defined.

Lemma log_kv_error_flag_witness :
  heap world_span_items !! 6%nat = Some (ODict items_example) /\
  exists w' d',
    Span_log_kv tags_example errors_example 5%nat 6%nat VNone world_span_items
    = Return (VRef 5%nat) w' /\
    heap w' !! 4%nat = Some (ODDSpan d') /\
    error d' = VInt 1.
Proof.
  split; [reflexivity|].
  apply (log_kv_error_flag tags_example errors_example world_span_items 5%nat
           span_example ddspan_example 6%nat items_example VNone); reflexivity.
Defined.

Lemma log_kv_last_item_wins_witness :
  exists w',
    Span_log_kv tags_example errors_example 5%nat 6%nat VNone world_span_items
    = Return (VRef 5%nat) w' /\
    Span_get_tag 5%nat "error.type" w' = Return VNone w' /\
    Span_get_tag 5%nat "error.msg" w' = Return (VStr "oops") w' /\
    Span_get_tag 5%nat "error.stack" w' = Return VNone w'.
Proof.
  apply (log_kv_last_item_wins tags_example errors_example world_span_items 5%nat
           span_example ddspan_example 6%nat items_example VNone);
    try reflexivity; try (unfold reserved; simpl; intuition discriminate).
  repeat (apply NoDup_cons_2;
          [rewrite ?not_elem_of_cons, ?elem_of_nil; simpl; intuition discriminate|]).
  apply NoDup_nil_2.
Defined.

(** ** Tags written and read back *)

Section TagRoundTrip.

Variable OTTags : OTTagsT.

(** X3. A reserved key is written, never read back: [set_tag] on a reserved
    key makes no [set_tag] call on the underlying span and leaves its generic
    tags as they are, the value goes to the [span_type] or the [resource]
    field, and [_get_tag] returns for every key, the reserved one too, what it
    returned before. *)
Theorem reserved_tag_not_readable (w : world) (self : loc) (s : Span)
    (d : DatadogSpan) (key : string) (value : pyval) :
  heap w !! self = Some (OSpan s) ->
  heap w !! _dd_span s = Some (ODDSpan d) ->
  reserved OTTags key ->
  exists w' d',
    Span_set_tag OTTags self key value w = Return tt w' /\
    heap w' !! self = Some (OSpan s) /\
    heap w' !! _dd_span s = Some (ODDSpan d') /\
    meta d' = meta d /\
    trace d' = trace d /\
    (span_type d' = value /\ resource d' = resource d \/
     resource d' = value /\ span_type d' = span_type d) /\
    (forall k v, Span_get_tag self k w = Return v w ->
                 Span_get_tag self k w' = Return v w').
Proof.
  intros Hs Hd Hr. pose proof (span_ddspan_ne _ _ _ _ _ Hs Hd) as Hne.
  set (w' := upd (_dd_span s) (ODDSpan (routed OTTags key value d)) w).
  assert (heap w' !! self = Some (OSpan s)) as Hs'
    by (unfold w'; by rewrite lookup_upd_ne).
  assert (heap w' !! _dd_span s = Some (ODDSpan (routed OTTags key value d))) as Hd'
    by (apply lookup_upd_eq; by rewrite Hd).
  assert (routed OTTags key value d = set_span_type value d \/
          routed OTTags key value d = set_resource value d) as Hrt.
  { unfold routed, reserved in *.
    destruct (bool_decide (key = SPAN_TYPE OTTags)) eqn:E1; [by left|].
    apply bool_decide_eq_false in E1. right.
    destruct Hr as [Hr|[Hr|Hr]]; [done| |].
    - by rewrite (bool_decide_true _ Hr).
    - rewrite (bool_decide_true (key = DB_STATEMENT OTTags)) by done.
      by rewrite orb_true_r. }
  exists w', (routed OTTags key value d).
  split; [by apply Span_set_tag_eq|]. split; [done|]. split; [done|].
  split; [by destruct Hrt as [-> | ->]|].
  split; [by destruct Hrt as [-> | ->]|].
  split; [destruct Hrt as [-> | ->]; [by left|by right]|].
  intros k v. rewrite (Span_get_tag_eq _ _ _ _ _ Hs Hd).
  rewrite (Span_get_tag_eq _ _ _ _ _ Hs' Hd').
  destruct Hrt as [-> | ->]; simpl; congruence.
Qed.

(** X4. The HTTP-URL key and the database-statement key share the [resource]
    field: of two [set_tag] calls on these keys the second undoes the first,
    the world is the one the second call alone leaves. *)
Theorem resource_keys_overwrite (w : world) (self : loc) (s : Span)
    (d : DatadogSpan) (k1 k2 : string) (v1 v2 : pyval) :
  heap w !! self = Some (OSpan s) ->
  heap w !! _dd_span s = Some (ODDSpan d) ->
  k1 <> SPAN_TYPE OTTags -> k1 = HTTP_URL OTTags \/ k1 = DB_STATEMENT OTTags ->
  k2 <> SPAN_TYPE OTTags -> k2 = HTTP_URL OTTags \/ k2 = DB_STATEMENT OTTags ->
  (Span_set_tag OTTags self k1 v1 ;;; Span_set_tag OTTags self k2 v2) w
  = Span_set_tag OTTags self k2 v2 w /\
  exists w' d',
    Span_set_tag OTTags self k2 v2 w = Return tt w' /\
    heap w' !! _dd_span s = Some (ODDSpan d') /\
    resource d' = v2 /\ meta d' = meta d /\ trace d' = trace d.
Proof.
  intros Hs Hd N1 R1 N2 R2. pose proof (span_ddspan_ne _ _ _ _ _ Hs Hd) as Hne.
  assert (forall k v d0, k <> SPAN_TYPE OTTags ->
            k = HTTP_URL OTTags \/ k = DB_STATEMENT OTTags ->
            routed OTTags k v d0 = set_resource v d0) as Hr.
  { intros k v d0 Hn Hk. unfold routed. rewrite bool_decide_false by done.
    destruct Hk as [->| ->].
    - by rewrite bool_decide_true.
    - rewrite (bool_decide_true (DB_STATEMENT OTTags = DB_STATEMENT OTTags)) by done.
      by rewrite orb_true_r. }
  split.
  - unfold bind. rewrite (Span_set_tag_eq _ _ _ _ _ _ _ Hs Hd).
    erewrite Span_set_tag_eq;
      [|rewrite lookup_upd_ne by done; exact Hs|apply lookup_upd_eq; by rewrite Hd].
    rewrite (Span_set_tag_eq _ _ _ _ _ _ _ Hs Hd), upd_upd.
    by rewrite !Hr.
  - eexists _, _. split; [by apply Span_set_tag_eq|].
    split; [apply lookup_upd_eq; by rewrite Hd|]. by rewrite Hr.
Qed.

(** X5. Renaming and tagging do not interfere: [set_operation_name] and
    [set_tag], on any key, give the same world in either order, and of two
    [set_operation_name] calls the second alone counts. *)
Theorem rename_and_tags_independent (w : world) (self : loc) (s : Span)
    (d : DatadogSpan) (n1 n2 : pyval) (key : string) (value : pyval) :
  heap w !! self = Some (OSpan s) ->
  heap w !! _dd_span s = Some (ODDSpan d) ->
  (Span_set_operation_name self n1 ;;; Span_set_tag OTTags self key value) w
  = (Span_set_tag OTTags self key value ;;; Span_set_operation_name self n1) w /\
  (Span_set_operation_name self n1 ;;; Span_set_operation_name self n2) w
  = Span_set_operation_name self n2 w /\
  exists w' d',
    (Span_set_operation_name self n1 ;;; Span_set_tag OTTags self key value) w
    = Return tt w' /\
    heap w' !! _dd_span s = Some (ODDSpan d') /\
    name d' = n1 /\
    meta d' = meta (routed OTTags key value d) /\
    heap w' !! self = Some (OSpan s).
Proof.
  intros Hs Hd. pose proof (span_ddspan_ne _ _ _ _ _ Hs Hd) as Hne.
  assert (forall o, heap (upd (_dd_span s) o w) !! self = Some (OSpan s)) as Hs'
    by (intros o; by rewrite lookup_upd_ne).
  assert (forall d0, heap (upd (_dd_span s) (ODDSpan d0) w) !! _dd_span s
                     = Some (ODDSpan d0)) as Hd'
    by (intros d0; apply lookup_upd_eq; by rewrite Hd).
  assert (set_name n1 (routed OTTags key value d)
          = routed OTTags key value (set_name n1 d)) as Hcomm.
  { unfold routed. destruct (bool_decide (key = SPAN_TYPE OTTags)); [done|].
    by destruct (bool_decide (key = HTTP_URL OTTags)
                 || bool_decide (key = DB_STATEMENT OTTags)). }
  assert ((Span_set_operation_name self n1 ;;; Span_set_tag OTTags self key value) w
          = Return tt (upd (_dd_span s)
                         (ODDSpan (routed OTTags key value (set_name n1 d))) w)) as E1.
  { unfold bind. rewrite (Span_set_operation_name_eq _ _ _ _ _ Hs Hd).
    rewrite (Span_set_tag_eq _ _ _ _ _ _ _ (Hs' _) (Hd' _)). by rewrite upd_upd. }
  split; [|split].
  - rewrite E1. unfold bind. rewrite (Span_set_tag_eq _ _ _ _ _ _ _ Hs Hd).
    rewrite (Span_set_operation_name_eq _ _ _ _ _ (Hs' _) (Hd' _)).
    by rewrite upd_upd, Hcomm.
  - unfold bind. rewrite (Span_set_operation_name_eq _ _ _ _ _ Hs Hd).
    rewrite (Span_set_operation_name_eq _ _ _ _ _ (Hs' _) (Hd' _)).
    by rewrite (Span_set_operation_name_eq _ _ _ _ _ Hs Hd), upd_upd.
  - eexists _, _. split; [exact E1|]. split; [apply Hd'|].
    rewrite <- Hcomm. split; [done|]. split; [done|]. apply Hs'.
Qed.

End TagRoundTrip.

Lemma reserved_tag_not_readable_witness :
  reserved tags_example "span.kind" /\
  exists w' d',
    Span_set_tag tags_example 5%nat "span.kind" (VStr "client") world_parent
    = Return tt w' /\
    heap w' !! 4%nat = Some (ODDSpan d') /\
    meta d' = [("x", VStr "y")] /\
    trace d' = [CallSetTag "x" (VStr "y")] /\
    Span_get_tag 5%nat "span.kind" w' = Return VNone w' /\
    Span_get_tag 5%nat "x" w' = Return (VStr "y") w'.
Proof.
  split; [by left|].
  destruct (reserved_tag_not_readable tags_example world_parent 5%nat
              span_parent_example ddspan_parent_example "span.kind" (VStr "client")
              eq_refl eq_refl)
    as (w' & d' & Hrun & _ & Hd' & Hm & Ht & _ & Hget); [by left|].
  exists w', d'. split; [exact Hrun|]. split; [exact Hd'|].
  split; [exact Hm|]. split; [exact Ht|].
  split; [by apply Hget|by apply Hget].
Defined.

Lemma resource_keys_overwrite_witness :
  (Span_set_tag tags_example 5%nat "http.url" (VStr "http://x") ;;;
   Span_set_tag tags_example 5%nat "db.statement" (VStr "select 1")) world_span
  = Span_set_tag tags_example 5%nat "db.statement" (VStr "select 1") world_span.
Proof.
  apply (resource_keys_overwrite tags_example world_span 5%nat span_example
           ddspan_example "http.url" "db.statement" (VStr "http://x")
           (VStr "select 1")); try reflexivity; try discriminate; auto.
Defined.

Lemma rename_and_tags_independent_witness :
  (Span_set_operation_name 5%nat (VStr "a") ;;;
   Span_set_tag tags_example 5%nat "span.kind" (VStr "client")) world_span
  = (Span_set_tag tags_example 5%nat "span.kind" (VStr "client") ;;;
     Span_set_operation_name 5%nat (VStr "a")) world_span.
Proof.
  apply (rename_and_tags_independent tags_example world_span 5%nat span_example
           ddspan_example (VStr "a") (VStr "b") "span.kind" (VStr "client"));
    reflexivity.
Defined.

(** ** The end time that reaches the underlying span *)

Lemma finish_filter_closed (now t : pyval) (d : DatadogSpan) :
  List.filter is_finish_call (trace (closed now t d))
  = List.filter is_finish_call (trace d).
Proof.
  unfold closed. destruct (dd_finished d); [done|].
  simpl. rewrite List.filter_app. simpl. by rewrite app_nil_r.
Qed.

(** X6. Of a sequence of [finish] calls on a span that is not finished, only
    the first reaches the underlying span, with its own [finish_time]: the
    sequence leaves the world the first call alone leaves, and the end times
    of the later calls are dropped. *)
Theorem first_finish_time_counts (w : world) (self : loc) (s : Span)
    (d : DatadogSpan) (t : pyval) (ts : list pyval) :
  heap w !! self = Some (OSpan s) ->
  heap w !! _dd_span s = Some (ODDSpan d) ->
  finished s = false ->
  finish_each self (t :: ts) w = Span_finish self t w /\
  exists w' d',
    Span_finish self t w = Return tt w' /\
    heap w' !! _dd_span s = Some (ODDSpan d') /\
    List.filter is_finish_call (trace d')
    = (List.filter is_finish_call (trace d) ++ [CallFinish t])%list.
Proof.
  intros Hs Hd Hf. pose proof (span_ddspan_ne _ _ _ _ _ Hs Hd) as Hne.
  rewrite (Span_finish_unfinished _ _ _ _ _ Hs Hd Hf).
  set (d1 := closed (clock w) t (add_event (CallFinish t) d)).
  set (w1 := upd self (OSpan (set_finished true s))
               (upd (_dd_span s) (ODDSpan d1) w)).
  assert (heap w1 !! self = Some (OSpan (set_finished true s))) as Hs1.
  { apply lookup_upd_eq. rewrite lookup_upd_ne by done. by rewrite Hs. }
  split.
  - cbn [finish_each]. unfold bind.
    rewrite (Span_finish_unfinished _ _ _ _ _ Hs Hd Hf). fold d1 w1.
    by rewrite (finish_each_finished _ _ _ _ Hs1 eq_refl).
  - exists w1, d1. split; [done|]. split.
    + unfold w1. rewrite lookup_upd_ne by done. apply lookup_upd_eq. by rewrite Hd.
    + unfold d1. rewrite finish_filter_closed. simpl.
      by rewrite List.filter_app.
Qed.

Lemma first_finish_time_counts_witness :
  finished span_example = false /\
  finish_each 5%nat [VInt 10; VInt 20; VNone] world_span
  = Span_finish 5%nat (VInt 10) world_span.
Proof.
  split; [reflexivity|].
  apply (first_finish_time_counts world_span 5%nat span_example ddspan_example
           (VInt 10) [VInt 20; VNone]); reflexivity.
Defined.

(** ** [log_kv], call after call, and on what is not a mapping *)

Section LogSequence.

Variable OTTags : OTTagsT.
Variable errors : errorsT.

Lemma log_kv_not_a_mapping_eq (w : world) (self : loc) (s : Span)
    (key_values : loc) (o : obj) (timestamp : pyval) :
  heap w !! self = Some (OSpan s) ->
  heap w !! key_values = Some o ->
  (forall items, o <> ODict items) ->
  Span_log_kv OTTags errors self key_values timestamp w
  = Raise AttributeError
      (upd self
         (OSpan (set_log
            {| records := (records (log s)
                           ++ [record_of (clock w) (VRef key_values, timestamp)])%list |}
            s)) w).
Proof.
  intros Hs Hk Ho.
  unfold Span_log_kv, bind. rewrite (load_span_eq _ _ _ Hs).
  unfold SpanLog_add_record, SpanLogRecord_init, bind.
  assert ((if truthy timestamp then ret timestamp else time_time) w
          = Return (py_or timestamp (clock w)) w) as ->.
  { unfold py_or. by destruct (truthy timestamp). }
  unfold ret at 1 2. rewrite (update_span_eq _ _ _ _ Hs).
  unfold load_dict, bind, load.
  destruct (decide (self = key_values)) as [<-|Hne].
  - rewrite lookup_upd_eq; [done|by rewrite Hs].
  - rewrite lookup_upd_ne by done. rewrite Hk.
    destruct o; try done. by destruct (Ho d).
Qed.

(** X7. When [key_values] is an object that is not a mapping, [log_kv]
    raises [AttributeError] after it has appended the record: the log is
    longer by one, its last record refers to that object, the records that
    were there are where they were, and the rest of the span and every other
    object are as before. *)
Theorem log_kv_not_a_mapping (w : world) (self : loc) (s : Span)
    (key_values : loc) (o : obj) (timestamp : pyval) :
  heap w !! self = Some (OSpan s) ->
  heap w !! key_values = Some o ->
  (forall items, o <> ODict items) ->
  exists w' s',
    Span_log_kv OTTags errors self key_values timestamp w = Raise AttributeError w' /\
    heap w' !! self = Some (OSpan s') /\
    records (log s')
    = (records (log s)
       ++ [{| record := VRef key_values;
              timestamp := py_or timestamp (clock w) |}])%list /\
    SpanLog_len (log s') = S (SpanLog_len (log s)) /\
    SpanLog_getitem (log s') (VInt (-1))
    = inr {| record := VRef key_values; timestamp := py_or timestamp (clock w) |} /\
    (forall (i : nat) r, records (log s) !! i = Some r ->
       SpanLog_getitem (log s') (VInt (Z.of_nat i)) = inr r) /\
    (_tracer s' = _tracer s /\ _context s' = _context s /\
     finished s' = finished s /\ lock s' = lock s /\ _dd_span s' = _dd_span s) /\
    (forall l, l <> self -> heap w' !! l = heap w !! l).
Proof.
  intros Hs Hk Ho. eexists _, _.
  split; [by apply log_kv_not_a_mapping_eq with o|].
  split; [apply lookup_upd_eq; by rewrite Hs|].
  split; [done|].
  split; [unfold SpanLog_len; simpl; rewrite length_app; simpl; lia|].
  split; [apply list_getitem_last|].
  split.
  { intros i r Hi. apply list_getitem_nat. by apply lookup_app_l_Some. }
  split; [done|].
  intros l Hl. by rewrite lookup_upd_ne.
Qed.

Lemma log_kv_each_eq (entries : list (loc * pyval)) (w : world) (self : loc)
    (s : Span) (d : DatadogSpan) :
  heap w !! self = Some (OSpan s) ->
  heap w !! _dd_span s = Some (ODDSpan d) ->
  Forall (fun e => exists items, heap w !! e.1 = Some (ODict items)) entries ->
  exists w' s' d' rs,
    log_kv_each OTTags errors self entries w = Return tt w' /\
    heap w' !! self = Some (OSpan s') /\
    heap w' !! _dd_span s = Some (ODDSpan d') /\
    _dd_span s' = _dd_span s /\
    records (log s') = (records (log s) ++ rs)%list /\
    length rs = length entries /\
    (forall (i : nat) e, entries !! i = Some e ->
       exists r, rs !! i = Some r /\ record r = VRef e.1 /\
                 (truthy e.2 = true -> timestamp r = e.2)).
Proof.
  revert w s d. induction entries as [|[kv ts] entries IH]; intros w s d Hs Hd Hall.
  - exists w, s, d, []. simpl. rewrite app_nil_r. by repeat split.
  - pose proof (span_ddspan_ne _ _ _ _ _ Hs Hd) as Hne.
    inversion Hall as [|e l [items Hk] Hall']; subst. simpl in Hk.
    cbn [log_kv_each]. unfold bind.
    rewrite (Span_log_kv_eq _ _ _ _ _ _ _ _ _ Hs Hd Hk).
    match goal with
    | |- context [upd (_dd_span s) (ODDSpan ?d1) (upd self (OSpan ?s1) w)] =>
        set (w1 := upd (_dd_span s) (ODDSpan d1) (upd self (OSpan s1) w));
        destruct (IH w1 s1 d1)
          as (w' & s' & d' & rs & Hrun & Hs' & Hd' & Hdd & Hrec & Hlen & Hrs)
    end.
    + unfold w1. rewrite lookup_upd_ne by done. apply lookup_upd_eq. by rewrite Hs.
    + unfold w1. apply lookup_upd_eq. rewrite lookup_upd_ne by done. by rewrite Hd.
    + eapply Forall_impl; [exact Hall'|]. intros e [items' He]. exists items'.
      unfold w1. rewrite !lookup_upd_ne; [done| |]; congruence.
    + exists w', s', d', (record_of (clock w) (VRef kv, ts) :: rs).
      split; [exact Hrun|]. split; [exact Hs'|]. split; [exact Hd'|].
      split; [exact Hdd|].
      split; [rewrite Hrec; simpl; by rewrite <- app_assoc|].
      split; [simpl; by rewrite Hlen|].
      intros [|i] e He; simpl in He.
      * inversion He; subst e. eexists. split; [reflexivity|]. split; [done|].
        intros Ht. simpl in *. unfold py_or. by rewrite Ht.
      * exact (Hrs i e He).
Qed.

(** X8. Every [log_kv] call appends one record, whatever the mapping holds:
    after the calls of [entries] the log is longer by their number, the
    records that were there are where they were, and the [i]-th call's record
    follows them at its place, referring to that call's mapping and carrying
    that call's timestamp when one was given that is true. *)
Theorem log_kv_appends_in_order (w : world) (self : loc) (s : Span)
    (d : DatadogSpan) (entries : list (loc * pyval)) :
  heap w !! self = Some (OSpan s) ->
  heap w !! _dd_span s = Some (ODDSpan d) ->
  Forall (fun e => exists items, heap w !! e.1 = Some (ODict items)) entries ->
  exists w' s',
    log_kv_each OTTags errors self entries w = Return tt w' /\
    heap w' !! self = Some (OSpan s') /\
    SpanLog_len (log s') = (SpanLog_len (log s) + length entries)%nat /\
    (forall (i : nat) r, records (log s) !! i = Some r ->
       SpanLog_getitem (log s') (VInt (Z.of_nat i)) = inr r) /\
    (forall (i : nat) e, entries !! i = Some e ->
       exists r,
         SpanLog_getitem (log s') (VInt (Z.of_nat (SpanLog_len (log s) + i))) = inr r /\
         record r = VRef e.1 /\
         (truthy e.2 = true -> timestamp r = e.2)).
Proof.
  intros Hs Hd Hall.
  destruct (log_kv_each_eq entries w self s d Hs Hd Hall)
    as (w' & s' & d' & rs & Hrun & Hs' & _ & _ & Hrec & Hlen & Hrs).
  exists w', s'. split; [exact Hrun|]. split; [exact Hs'|].
  unfold SpanLog_len, SpanLog_getitem. rewrite Hrec.
  split; [by rewrite length_app, Hlen|].
  split.
  - intros i r Hi. apply list_getitem_nat. by apply lookup_app_l_Some.
  - intros i e Hi. destruct (Hrs i e Hi) as (r & Hr & Hrr & Hts).
    exists r. split; [|by split].
    apply list_getitem_nat. rewrite lookup_app_r by lia.
    replace (length (records (log s)) + i - length (records (log s)))%nat
      with i by lia.
    exact Hr.
Qed.

End LogSequence.

Lemma log_kv_not_a_mapping_witness :
  heap world_span_opaque !! 5%nat = Some (OSpan span_example) /\
  heap world_span_opaque !! 7%nat = Some OOpaque /\
  exists w' s',
    Span_log_kv tags_example errors_example 5%nat 7%nat (VInt 9) world_span_opaque
    = Raise AttributeError w' /\
    heap w' !! 5%nat = Some (OSpan s') /\
    records (log s') = [{| record := VRef 7%nat; timestamp := VInt 9 |}] /\
    SpanLog_len (log s') = 1%nat /\
    heap w' !! 4%nat = Some (ODDSpan ddspan_example).
Proof.
  split; [reflexivity|]. split; [reflexivity|].
  destruct (log_kv_not_a_mapping tags_example errors_example world_span_opaque
              5%nat span_example 7%nat OOpaque (VInt 9) eq_refl eq_refl)
    as (w' & s' & Hrun & Hs' & Hrec & Hlen & _ & _ & _ & Hframe); [done|].
  exists w', s'. split; [exact Hrun|]. split; [exact Hs'|].
  split; [exact Hrec|]. split; [exact Hlen|].
  rewrite Hframe by discriminate. reflexivity.
Defined.

Lemma log_kv_appends_in_order_witness :
  exists w' s',
    log_kv_each tags_example errors_example 5%nat
      [(6%nat, VNone); (6%nat, VInt 7); (6%nat, VInt 0)] world_span_items
    = Return tt w' /\
    heap w' !! 5%nat = Some (OSpan s') /\
    SpanLog_len (log s') = 3%nat /\
    exists r,
      SpanLog_getitem (log s') (VInt 1) = inr r /\
      record r = VRef 6%nat /\ timestamp r = VInt 7.
Proof.
  destruct (log_kv_appends_in_order tags_example errors_example world_span_items
              5%nat span_example ddspan_example
              [(6%nat, VNone); (6%nat, VInt 7); (6%nat, VInt 0)] eq_refl eq_refl)
    as (w' & s' & Hrun & Hs' & Hlen & _ & Hnew).
  { repeat constructor; by exists items_example. }
  exists w', s'. split; [exact Hrun|]. split; [exact Hs'|]. split; [exact Hlen|].
  destruct (Hnew 1%nat (6%nat, VInt 7) eq_refl) as (r & Hr & Hrec & Hts).
  exists r. split; [exact Hr|]. split; [exact Hrec|]. exact (Hts eq_refl).
Defined.

(** ** Baggage, call after call *)

Section BaggageSequence.

Variable OTTags : OTTagsT.

Lemma span_at_baggage_set (w : world) (self : loc) (s : Span) (d : DatadogSpan)
    (c : SpanContext) (b : dict) (key : string) (value : pyval) :
  span_at w self s d c b ->
  span_at (baggage_set OTTags w self s d c b key value) self
    (set_context (S (length (heap w))) s) (routed OTTags key value d)
    {| _dd_context := _dd_context c; baggage := length (heap w) |}
    (dict_set key value b).
Proof.
  intros (Hs & Hd & Hc & Hb).
  destruct (baggage_set_new OTTags w self s d c b key value Hs Hd) as [Hnc Hnb].
  split; [by apply baggage_set_self|].
  split; [exact (baggage_set_ddspan OTTags w self s d c b key value Hs Hd)|].
  by split.
Qed.

Lemma set_baggage_each_eq (kvs : dict) (w : world) (self : loc) (s : Span)
    (d : DatadogSpan) (c : SpanContext) (b : dict) :
  span_at w self s d c b -> lock s = false ->
  exists w' s' c',
    set_baggage_each OTTags self kvs w = Return tt w' /\
    span_at w' self s' (replayed OTTags kvs d) c' (dict_set_each kvs b) /\
    lock s' = false /\ finished s' = finished s /\ log s' = log s /\
    _dd_span s' = _dd_span s /\ _dd_context c' = _dd_context c.
Proof.
  revert w s d c b. induction kvs as [|[key value] kvs IH]; intros w s d c b Hat Hl.
  - by exists w, s, c.
  - pose proof Hat as (Hs & Hd & Hc & Hb).
    cbn [set_baggage_each]. unfold bind.
    rewrite (Span_set_baggage_item_eq _ _ _ _ _ _ _ _ _ Hs Hd Hc Hb Hl).
    destruct (IH _ _ _ _ _ (span_at_baggage_set _ _ _ _ _ _ key value Hat) Hl)
      as (w' & s' & c' & Hrun & Hat' & Hl' & Hf' & Hlog' & Hdd' & Hctx').
    by exists w', s', c'.
Qed.

(** X9. After any sequence of [set_baggage_item] calls, [get_baggage_item]
    returns for a key the value of the last call with that key, for a key that
    no call had what it returned before, and [None] for a key that was never
    set; the underlying context stays the same. *)
Theorem baggage_reads_last_write (w : world) (self : loc) (s : Span)
    (d : DatadogSpan) (c : SpanContext) (b : dict) (kvs : dict) :
  heap w !! self = Some (OSpan s) ->
  heap w !! _dd_span s = Some (ODDSpan d) ->
  heap w !! _context s = Some (OContext c) ->
  heap w !! baggage c = Some (ODict b) ->
  lock s = false ->
  exists w',
    set_baggage_each OTTags self kvs w = Return tt w' /\
    (forall k,
       Span_get_baggage_item self k w'
       = Return (default VNone (from_option Some (dict_get k b) (last_set k kvs))) w') /\
    (forall k, Span_get_baggage_item self k w
               = Return (default VNone (dict_get k b)) w) /\
    (exists s' c', heap w' !! self = Some (OSpan s') /\
                   heap w' !! _context s' = Some (OContext c') /\
                   _dd_context c' = _dd_context c).
Proof.
  intros Hs Hd Hc Hb Hl.
  destruct (set_baggage_each_eq kvs w self s d c b) as
    (w' & s' & c' & Hrun & (Hs' & Hd' & Hc' & Hb') & _ & _ & _ & _ & Hctx);
    [done|done|].
  exists w'. split; [exact Hrun|]. split; [|split].
  - intros k. rewrite (Span_get_baggage_item_eq _ _ _ _ _ k Hs' Hc' Hb').
    f_equal. f_equal. unfold dict_set_each, last_set.
    apply (fold_last (dict_get k) (fun b kv => dict_set kv.1 kv.2 b)
             (fun kv => bool_decide (kv.1 = k))).
    intros a [k0 v0]. apply dict_get_set.
  - intros k. by apply Span_get_baggage_item_eq with s c.
  - by exists s', c'.
Qed.

End BaggageSequence.

Lemma baggage_reads_last_write_witness :
  exists w',
    set_baggage_each tags_example 5%nat
      [("a", VInt 1); ("b", VInt 2); ("a", VInt 3)] world_span = Return tt w' /\
    Span_get_baggage_item 5%nat "a" w' = Return (VInt 3) w' /\
    Span_get_baggage_item 5%nat "b" w' = Return (VInt 2) w' /\
    Span_get_baggage_item 5%nat "c" w' = Return VNone w'.
Proof.
  destruct (baggage_reads_last_write tags_example world_span 5%nat span_example
              ddspan_example context_example []
              [("a", VInt 1); ("b", VInt 2); ("a", VInt 3)]
              eq_refl eq_refl eq_refl eq_refl eq_refl)
    as (w' & Hrun & Hget & _).
  exists w'. split; [exact Hrun|].
  split; [exact (Hget "a")|]. split; [exact (Hget "b")|exact (Hget "c")].
Defined.

(** ** Attaching another underlying span *)

Section Rebinding.

Variable OTTags : OTTagsT.

Lemma set_tags_eq (items : dict) (w : world) (self : loc) (s : Span)
    (d : DatadogSpan) :
  heap w !! self = Some (OSpan s) -> heap w !! _dd_span s = Some (ODDSpan d) ->
  set_tags OTTags self items w
  = Return tt (upd (_dd_span s) (ODDSpan (replayed OTTags items d)) w).
Proof.
  revert w d. induction items as [|[key val] items IH]; intros w d Hs Hd.
  - simpl. unfold ret. by rewrite (upd_same _ _ _ Hd).
  - pose proof (span_ddspan_ne _ _ _ _ _ Hs Hd) as Hne.
    cbn [set_tags]. unfold bind. rewrite (Span_set_tag_eq _ _ _ _ _ _ _ Hs Hd).
    erewrite IH.
    + by rewrite upd_upd.
    + rewrite lookup_upd_ne by done. exact Hs.
    + apply lookup_upd_eq. by rewrite Hd.
Qed.

Lemma Span_add_dd_span_eq (w : world) (self : loc) (s : Span) (c : SpanContext)
    (b : dict) (ddspan : loc) (dn : DatadogSpan) :
  heap w !! self = Some (OSpan s) ->
  heap w !! ddspan = Some (ODDSpan dn) ->
  heap w !! _context s = Some (OContext c) ->
  heap w !! baggage c = Some (ODict b) ->
  Span_add_dd_span OTTags self ddspan w
  = Return tt (rebound OTTags w self s c b ddspan dn).
Proof.
  intros Hs Hn Hc Hb.
  assert (self <> ddspan) as N1 by (eapply lookup_ne; [exact Hs|exact Hn|done]).
  assert (self <> _context s) as N2 by (eapply lookup_ne; [exact Hs|exact Hc|done]).
  assert (self <> baggage c) as N3 by (eapply lookup_ne; [exact Hs|exact Hb|done]).
  assert (_context s <> ddspan) as N4 by (eapply lookup_ne; [exact Hc|exact Hn|done]).
  assert (_context s <> baggage c) as N5
    by (eapply lookup_ne; [exact Hc|exact Hb|done]).
  unfold Span_add_dd_span, bind. rewrite (update_span_eq _ _ _ _ Hs).
  set (w1 := upd self (OSpan (set_dd_span ddspan s)) w).
  assert (heap w1 !! self = Some (OSpan (set_dd_span ddspan s))) as Hs1
    by (apply lookup_upd_eq; by rewrite Hs).
  assert (heap w1 !! ddspan = Some (ODDSpan dn)) as Hn1
    by (unfold w1; by rewrite lookup_upd_ne).
  assert (heap w1 !! _context s = Some (OContext c)) as Hc1
    by (unfold w1; by rewrite lookup_upd_ne).
  rewrite (load_ddspan_eq _ _ _ Hn1). unfold Span_context, bind.
  rewrite (load_span_eq _ _ _ Hs1). unfold ret at 1. simpl _context.
  rewrite (load_context_eq _ _ _ Hc1). unfold store.
  fold (upd (_context s) (OContext {| _dd_context := context dn; baggage := baggage c |}) w1).
  set (w2 := upd (_context s) _ w1).
  assert (heap w2 !! baggage c = Some (ODict b)) as Hb2
    by (unfold w2, w1; by rewrite !lookup_upd_ne).
  rewrite (load_dict_eq _ _ _ Hb2).
  rewrite (set_tags_eq b w2 self (set_dd_span ddspan s) dn); [done| |].
  - unfold w2. by rewrite lookup_upd_ne.
  - unfold w2. by rewrite lookup_upd_ne.
Qed.

Lemma meta_replayed (k : string) (items : dict) (d : DatadogSpan) :
  ~ reserved OTTags k ->
  dict_get k (meta (replayed OTTags items d))
  = from_option Some (dict_get k (meta d)) (last_set k items).
Proof.
  intros Hk. unfold replayed, last_set.
  apply (fold_last (fun d => dict_get k (meta d))
           (fun d kv => routed OTTags kv.1 kv.2 d)
           (fun kv => bool_decide (kv.1 = k))).
  intros a [k0 v0]. simpl. rewrite meta_routed.
  repeat case_bool_decide; try done; exfalso; intuition congruence.
Qed.

Lemma finish_filter_routed (key : string) (value : pyval) (d : DatadogSpan) :
  List.filter is_finish_call (trace (routed OTTags key value d))
  = List.filter is_finish_call (trace d) /\
  dd_finished (routed OTTags key value d) = dd_finished d /\
  context (routed OTTags key value d) = context d.
Proof.
  unfold routed. destruct (bool_decide (key = SPAN_TYPE OTTags)); [done|].
  destruct (bool_decide (key = HTTP_URL OTTags) || bool_decide (key = DB_STATEMENT OTTags));
    [done|].
  simpl. rewrite List.filter_app. simpl. by rewrite app_nil_r.
Qed.

Lemma finish_filter_replayed (items : dict) (d : DatadogSpan) :
  List.filter is_finish_call (trace (replayed OTTags items d))
  = List.filter is_finish_call (trace d) /\
  dd_finished (replayed OTTags items d) = dd_finished d /\
  context (replayed OTTags items d) = context d.
Proof.
  unfold replayed. revert d. induction items as [|[k v] items IH]; intros d; [done|].
  simpl. destruct (IH (routed OTTags k v d)) as (-> & -> & ->).
  apply finish_filter_routed.
Qed.

(** X10. [_add_dd_span] makes the span refer to the given underlying span and
    changes the span's context object in place: the same context, with the
    same baggage, now has the given span's context as underlying context, so
    whoever holds that context sees the change. The baggage is replayed on the
    new underlying span: every baggage key that is not reserved reads through
    [_get_tag] the value [get_baggage_item] gives. The span's log, latch and
    lock, and the underlying span it had, are as before. *)
Theorem add_dd_span_rebinds (w : world) (self : loc) (s : Span) (c : SpanContext)
    (b : dict) (ddspan : loc) (dn : DatadogSpan) :
  heap w !! self = Some (OSpan s) ->
  heap w !! ddspan = Some (ODDSpan dn) ->
  heap w !! _context s = Some (OContext c) ->
  heap w !! baggage c = Some (ODict b) ->
  NoDup b.*1 ->
  exists w',
    Span_add_dd_span OTTags self ddspan w = Return tt w' /\
    heap w' !! self = Some (OSpan (set_dd_span ddspan s)) /\
    heap w' !! _context s
    = Some (OContext {| _dd_context := context dn; baggage := baggage c |}) /\
    Span_dd_context self w' = Return (context dn) w' /\
    (forall k, Span_get_baggage_item self k w'
               = Return (default VNone (dict_get k b)) w') /\
    (forall k v, dict_get k b = Some v -> ~ reserved OTTags k ->
       Span_get_tag self k w' = Return v w') /\
    (forall l o, heap w !! l = Some o ->
       l <> self -> l <> _context s -> l <> ddspan -> heap w' !! l = Some o).
Proof.
  intros Hs Hn Hc Hb Hnd.
  assert (self <> ddspan) as N1 by (eapply lookup_ne; [exact Hs|exact Hn|done]).
  assert (self <> _context s) as N2 by (eapply lookup_ne; [exact Hs|exact Hc|done]).
  assert (self <> baggage c) as N3 by (eapply lookup_ne; [exact Hs|exact Hb|done]).
  assert (_context s <> ddspan) as N4 by (eapply lookup_ne; [exact Hc|exact Hn|done]).
  assert (_context s <> baggage c) as N5
    by (eapply lookup_ne; [exact Hc|exact Hb|done]).
  assert (ddspan <> baggage c) as N6 by (eapply lookup_ne; [exact Hn|exact Hb|done]).
  set (w' := rebound OTTags w self s c b ddspan dn).
  assert (heap w' !! self = Some (OSpan (set_dd_span ddspan s))) as Hs'.
  { unfold w', rebound. rewrite !lookup_upd_ne by done.
    apply lookup_upd_eq. by rewrite Hs. }
  assert (heap w' !! ddspan = Some (ODDSpan (replayed OTTags b dn))) as Hn'.
  { unfold w', rebound. apply lookup_upd_eq. rewrite !lookup_upd_ne by done.
    by rewrite Hn. }
  assert (heap w' !! _context s
          = Some (OContext {| _dd_context := context dn; baggage := baggage c |}))
    as Hc'.
  { unfold w', rebound. rewrite lookup_upd_ne by done.
    apply lookup_upd_eq. rewrite lookup_upd_ne by done. by rewrite Hc. }
  assert (heap w' !! baggage c = Some (ODict b)) as Hb'.
  { unfold w', rebound. by rewrite !lookup_upd_ne. }
  exists w'. split; [by apply Span_add_dd_span_eq|].
  split; [done|]. split; [done|]. split.
  { unfold Span_dd_context, bind.
    rewrite (load_span_eq _ _ _ Hs'). simpl _dd_span.
    rewrite (load_ddspan_eq _ _ _ Hn').
    by destruct (finish_filter_replayed b dn) as (_ & _ & ->). }
  split.
  { intros k. by eapply Span_get_baggage_item_eq. }
  split.
  { intros k v Hk Hr. rewrite (Span_get_tag_eq _ _ _ _ k Hs' Hn').
    by rewrite (meta_replayed _ _ _ Hr), (last_set_NoDup _ _ Hnd), Hk. }
  intros l o Hl L1 L2 L3. unfold w', rebound. by rewrite !lookup_upd_ne.
Qed.


End Rebinding.

Lemma add_dd_span_rebinds_witness :
  heap world_other !! 5%nat = Some (OSpan span_parent_example) /\
  heap world_other !! 8%nat = Some (ODDSpan ddspan_other) /\
  exists w',
    Span_add_dd_span tags_example 5%nat 8%nat world_other = Return tt w' /\
    heap w' !! 7%nat
    = Some (OContext {| _dd_context := VStr "other-context"; baggage := 6%nat |}) /\
    Span_dd_context 5%nat w' = Return (VStr "other-context") w' /\
    Span_get_tag 5%nat "x" w' = Return (VStr "y") w' /\
    heap w' !! 4%nat = Some (ODDSpan ddspan_parent_example).
Proof.
  split; [reflexivity|]. split; [reflexivity|].
  destruct (add_dd_span_rebinds tags_example world_other 5%nat span_parent_example
              parent_context_example [("x", VStr "y")] 8%nat ddspan_other
              eq_refl eq_refl eq_refl eq_refl)
    as (w' & Hrun & _ & Hc & Hdc & _ & Htag & Hold).
  { simpl. apply NoDup_cons_2; [apply not_elem_of_nil|apply NoDup_nil_2]. }
  exists w'. split; [exact Hrun|]. split; [exact Hc|]. split; [exact Hdc|].
  split.
  - apply (Htag "x" (VStr "y") eq_refl). unfold reserved. simpl.
    intuition discriminate.
  - apply Hold; [reflexivity|discriminate..].
Defined.


(** ** New spans *)

Lemma Span_init_root_eq (w : world) (tracer : loc) (t : pyval)
    (operation_name : pyval) :
  heap w !! tracer = Some (OTracer t) ->
  Span_init tracer None operation_name w
  = Return (S (S (S (S (length (heap w)))))) (root_made w tracer t operation_name).
Proof.
  intros Ht. unfold Span_init, SpanContext_init, bind.
  rewrite !alloc_eq. unfold ret at 1. rewrite !alloc_eq, !length_ext.
  set (w1 := ext OOpaque w).
  set (w2 := ext (ODict []) w1).
  set (w3 := ext (OContext _) w2).
  assert (length (heap w2) = S (S (length (heap w)))) as L2
    by (unfold w2, w1; by rewrite !length_ext).
  assert (heap w3 !! tracer = Some (OTracer t)) as Ht3
    by (by do 3 apply lookup_ext_old).
  rewrite (load_tracer_eq _ _ _ Ht3).
  assert (heap w3 !! S (S (length (heap w)))
          = Some (OContext {| _dd_context := VRef (length (heap w));
                              baggage := S (length (heap w)) |})) as Hc3.
  { unfold w3. rewrite <- L2. apply lookup_ext_new. }
  rewrite (load_context_eq _ _ _ Hc3).
  unfold DatadogSpan_init. rewrite !alloc_eq. unfold w3, w2, w1.
  rewrite !length_ext. reflexivity.
Qed.

Lemma root_made_lookup (w : world) (tracer : loc) (t : pyval)
    (operation_name : pyval) :
  let n := length (heap w) in
  let w' := root_made w tracer t operation_name in
  span_at w' (S (S (S (S n)))) (new_span tracer (S (S n)) (S (S (S n))))
    (new_ddspan t operation_name (VRef n))
    {| _dd_context := VRef n; baggage := S n |} [] /\
  (forall l o, heap w !! l = Some o -> heap w' !! l = Some o).
Proof.
  intros n w'. unfold w', root_made. fold n.
  set (w0 := ext OOpaque w).
  set (w1 := ext (ODict []) w0).
  set (w2 := ext (OContext {| _dd_context := VRef n; baggage := S n |}) w1).
  set (w3 := ext (ODDSpan (new_ddspan t operation_name (VRef n))) w2).
  assert (length (heap w0) = S n) as L0 by apply length_ext.
  assert (length (heap w1) = S (S n)) as L1 by (unfold w1; by rewrite length_ext, L0).
  assert (length (heap w2) = S (S (S n))) as L2
    by (unfold w2; by rewrite length_ext, L1).
  assert (length (heap w3) = S (S (S (S n)))) as L3
    by (unfold w3; by rewrite length_ext, L2).
  assert (heap w1 !! S n = Some (ODict [])) as H1
    by (rewrite <- L0; apply lookup_ext_new).
  assert (heap w2 !! S (S n)
          = Some (OContext {| _dd_context := VRef n; baggage := S n |})) as H2
    by (rewrite <- L1; apply lookup_ext_new).
  assert (heap w3 !! S (S (S n))
          = Some (ODDSpan (new_ddspan t operation_name (VRef n)))) as H3
    by (rewrite <- L2; apply lookup_ext_new).
  split.
  - split; [rewrite <- L3; apply lookup_ext_new|].
    split; [by apply lookup_ext_old|].
    split; [by do 2 apply lookup_ext_old|by do 3 apply lookup_ext_old].
  - intros l o Hl. by do 5 apply lookup_ext_old.
Qed.

Section NewSpans.

Variable OTTags : OTTagsT.

Lemma Span_dd_context_eq (w : world) (self : loc) (s : Span) (d : DatadogSpan) :
  heap w !! self = Some (OSpan s) -> heap w !! _dd_span s = Some (ODDSpan d) ->
  Span_dd_context self w = Return (context d) w.
Proof.
  intros Hs Hd. unfold Span_dd_context, bind.
  by rewrite (load_span_eq _ _ _ Hs), (load_ddspan_eq _ _ _ Hd).
Qed.

(** the underlying span and the context agree, and keep agreeing under
    [set_baggage_item] *)
Lemma agreement_kept (w : world) (self : loc) (s : Span) (d : DatadogSpan)
    (c : SpanContext) (b : dict) (kvs : dict) :
  span_at w self s d c b -> lock s = false -> context d = _dd_context c ->
  exists w' s' c',
    set_baggage_each OTTags self kvs w = Return tt w' /\
    heap w' !! self = Some (OSpan s') /\
    heap w' !! _context s' = Some (OContext c') /\
    _dd_context c' = _dd_context c /\
    Span_dd_context self w' = Return (_dd_context c') w'.
Proof.
  intros Hat Hl Hag.
  destruct (set_baggage_each_eq OTTags kvs w self s d c b Hat Hl)
    as (w' & s' & c' & Hrun & (Hs' & Hd' & Hc' & _) & _ & _ & _ & _ & Hctx).
  exists w', s', c'. split; [exact Hrun|]. split; [exact Hs'|].
  split; [exact Hc'|]. split; [exact Hctx|].
  rewrite (Span_dd_context_eq _ _ _ _ Hs' Hd').
  destruct (finish_filter_replayed OTTags kvs d) as (_ & _ & ->).
  by rewrite Hag, Hctx.
Qed.

(** X12. The underlying span of a new span is made for the underlying context
    of the span's own context, the parent's when there is a parent: the
    [_dd_context] property and [context._dd_context] give the same handle
    after [Span.__init__], and still do after any sequence of
    [set_baggage_item] calls, although each call replaces the context. *)
Theorem underlying_context_agrees (w : world) (tracer : loc) (t : pyval)
    (operation_name : pyval) :
  heap w !! tracer = Some (OTracer t) ->
  (exists w' self s c,
      Span_init tracer None operation_name w = Return self w' /\
      heap w' !! self = Some (OSpan s) /\
      heap w' !! _context s = Some (OContext c) /\
      Span_dd_context self w' = Return (_dd_context c) w' /\
      forall kvs, exists w'' s'' c'',
        set_baggage_each OTTags self kvs w' = Return tt w'' /\
        heap w'' !! self = Some (OSpan s'') /\
        heap w'' !! _context s'' = Some (OContext c'') /\
        _dd_context c'' = _dd_context c /\
        Span_dd_context self w'' = Return (_dd_context c'') w'') /\
  (forall p pc b,
      heap w !! p = Some (OContext pc) ->
      heap w !! baggage pc = Some (ODict b) ->
      exists w' child,
        Span_init tracer (Some p) operation_name w = Return child w' /\
        Span_dd_context child w' = Return (_dd_context pc) w' /\
        forall kvs, exists w'' s'' c'',
          set_baggage_each OTTags child kvs w' = Return tt w'' /\
          heap w'' !! child = Some (OSpan s'') /\
          heap w'' !! _context s'' = Some (OContext c'') /\
          _dd_context c'' = _dd_context pc /\
          Span_dd_context child w'' = Return (_dd_context pc) w'').
Proof.
  intros Ht. split.
  - destruct (root_made_lookup w tracer t operation_name) as [Hat _].
    pose proof Hat as (Hs & Hd & Hc & Hb).
    eexists _, _, _, _. split; [by apply Span_init_root_eq|].
    split; [exact Hs|]. split; [exact Hc|].
    split; [by rewrite (Span_dd_context_eq _ _ _ _ Hs Hd)|].
    intros kvs. exact (agreement_kept _ _ _ _ _ _ kvs Hat eq_refl eq_refl).
  - intros p pc b Hp Hb.
    destruct (child_made_lookup w tracer t pc b operation_name)
      as (Hn0 & Hn1 & Hn2 & Hn3 & _).
    eexists _, _. split; [by apply Span_init_child_eq|].
    split; [by rewrite (Span_dd_context_eq _ _ _ _ Hn3 Hn2)|].
    intros kvs.
    destruct (agreement_kept _ _ _ _ _ _ kvs (conj Hn3 (conj Hn2 (conj Hn1 Hn0)))
                eq_refl eq_refl)
      as (w'' & s'' & c'' & Hrun & Hs'' & Hc'' & Hctx & Hdc).
    exists w'', s'', c''. rewrite Hdc, Hctx. by repeat split.
Qed.

(** X13. [Span.__init__] changes no object that exists, with or without a
    parent, and the span it makes is not finished, holds no lock and has an
    empty log, so every [int] index into the log raises [IndexError]. Made
    without a parent, the span has no baggage: [get_baggage_item] returns
    [None] for every key. *)
Theorem new_span_is_blank (w : world) (tracer : loc) (t : pyval)
    (operation_name : pyval) :
  heap w !! tracer = Some (OTracer t) ->
  (exists w' self s,
      Span_init tracer None operation_name w = Return self w' /\
      heap w' !! self = Some (OSpan s) /\
      finished s = false /\ lock s = false /\ SpanLog_len (log s) = 0%nat /\
      (forall i, SpanLog_getitem (log s) (VInt i) = inl IndexError) /\
      (forall k, Span_get_baggage_item self k w' = Return VNone w') /\
      (forall l o, heap w !! l = Some o -> heap w' !! l = Some o)) /\
  (forall p pc b,
      heap w !! p = Some (OContext pc) ->
      heap w !! baggage pc = Some (ODict b) ->
      exists w' child s,
        Span_init tracer (Some p) operation_name w = Return child w' /\
        heap w' !! child = Some (OSpan s) /\
        finished s = false /\ lock s = false /\ SpanLog_len (log s) = 0%nat /\
        (forall i, SpanLog_getitem (log s) (VInt i) = inl IndexError) /\
        (forall l o, heap w !! l = Some o -> heap w' !! l = Some o)).
Proof.
  intros Ht.
  assert (forall i, list_getitem (@nil SpanLogRecord) i = inl IndexError) as Hidx.
  { intros i. apply list_getitem_out. simpl. lia. }
  split.
  - destruct (root_made_lookup w tracer t operation_name) as [Hat Hold].
    pose proof Hat as (Hs & Hd & Hc & Hb).
    eexists _, _, _. split; [by apply Span_init_root_eq|].
    split; [exact Hs|]. repeat (split; [done|]).
    split; [|exact Hold].
    intros k. by rewrite (Span_get_baggage_item_eq _ _ _ _ _ k Hs Hc Hb).
  - intros p pc b Hp Hb.
    destruct (child_made_lookup w tracer t pc b operation_name)
      as (_ & _ & _ & Hn3 & Hold).
    eexists _, _, _. split; [by apply Span_init_child_eq|].
    split; [exact Hn3|]. repeat (split; [done|]). exact Hold.
Qed.

End NewSpans.

Lemma underlying_context_agrees_witness :
  heap world_tracer !! 0%nat = Some (OTracer (VStr "dd-tracer")) /\
  exists w' self s c,
    Span_init 0%nat None (VStr "op") world_tracer = Return self w' /\
    heap w' !! self = Some (OSpan s) /\
    heap w' !! _context s = Some (OContext c) /\
    Span_dd_context self w' = Return (_dd_context c) w'.
Proof.
  split; [reflexivity|].
  destruct (underlying_context_agrees tags_example world_tracer 0%nat
              (VStr "dd-tracer") (VStr "op") eq_refl)
    as [(w' & self & s & c & H1 & H2 & H3 & H4 & _) _].
  by exists w', self, s, c.
Defined.

Lemma new_span_is_blank_witness :
  heap world_tracer !! 0%nat = Some (OTracer (VStr "dd-tracer")) /\
  exists w' self,
    Span_init 0%nat None (VStr "op") world_tracer = Return self w' /\
    (forall k, Span_get_baggage_item self k w' = Return VNone w').
Proof.
  split; [reflexivity|].
  destruct (new_span_is_blank world_tracer 0%nat (VStr "dd-tracer") (VStr "op")
              eq_refl)
    as [(w' & self & s & H1 & _ & _ & _ & _ & _ & H7 & _) _].
  by exists w', self.
Defined.

(** ** Leaving the block after [finish] *)

(** X14. On a span that is finished already, [__exit__] still records a
    pending exception on the underlying span and still calls the underlying
    [__exit__], but makes no further [finish] call: when the underlying span
    is closed too, these two calls are all it receives. *)
Theorem exit_after_explicit_finish (w : world) (self : loc) (s : Span)
    (d : DatadogSpan) (exc_type exc_val exc_tb : pyval) :
  heap w !! self = Some (OSpan s) ->
  heap w !! _dd_span s = Some (ODDSpan d) ->
  finished s = true ->
  exists w' d',
    Span_exit self exc_type exc_val exc_tb w = Return tt w' /\
    heap w' !! self = Some (OSpan s) /\
    heap w' !! _dd_span s = Some (ODDSpan d') /\
    List.filter is_finish_call (trace d') = List.filter is_finish_call (trace d) /\
    (truthy exc_type = true -> exc_info d' = Some (exc_type, exc_val, exc_tb)) /\
    (truthy exc_type = false -> exc_info d' = exc_info d) /\
    (dd_finished d = true ->
     trace d'
     = (trace d
        ++ (if truthy exc_type then [CallSetExcInfo exc_type exc_val exc_tb] else [])
        ++ [CallExit exc_type exc_val exc_tb])%list).
Proof.
  intros Hs Hd Hf. pose proof (span_ddspan_ne _ _ _ _ _ Hs Hd) as Hne.
  pose proof (Span_exit_eq _ _ _ _ exc_type exc_val exc_tb Hs Hd) as Heq.
  cbv zeta in Heq. rewrite Hf in Heq.
  eexists _, _. split; [exact Heq|].
  split; [by rewrite lookup_upd_ne|].
  split; [apply lookup_upd_eq; by rewrite Hd|].
  split.
  { rewrite finish_filter_closed. simpl. rewrite List.filter_app. simpl.
    rewrite app_nil_r. destruct (truthy exc_type); [|done].
    simpl. rewrite List.filter_app. simpl. by rewrite app_nil_r. }
  split.
  { intros Ht. rewrite exc_info_closed. simpl. by rewrite Ht. }
  split.
  { intros Ht. rewrite exc_info_closed. simpl. by rewrite Ht. }
  intros Hdf. unfold closed.
  destruct (truthy exc_type); simpl; rewrite Hdf; simpl.
  - by rewrite <- app_assoc.
  - done.
Qed.

Lemma exit_after_explicit_finish_witness :
  heap world_finished_raised !! 5%nat = Some (OSpan span_finished_example) /\
  finished span_finished_example = true /\
  exists w' d',
    Span_exit 5%nat (VRef 6%nat) (VRef 7%nat) (VRef 8%nat) world_finished_raised
    = Return tt w' /\
    heap w' !! 4%nat = Some (ODDSpan d') /\
    trace d'
    = [CallFinish VNone; Closed (VFloat 3 2);
       CallSetExcInfo (VRef 6%nat) (VRef 7%nat) (VRef 8%nat);
       CallExit (VRef 6%nat) (VRef 7%nat) (VRef 8%nat)].
Proof.
  split; [reflexivity|]. split; [reflexivity|].
  destruct (exit_after_explicit_finish world_finished_raised 5%nat
              span_finished_example ddspan_finished_example
              (VRef 6%nat) (VRef 7%nat) (VRef 8%nat) eq_refl eq_refl eq_refl)
    as (w' & d' & Hrun & _ & Hd' & _ & _ & _ & Htr).
  exists w', d'. split; [exact Hrun|]. split; [exact Hd'|].
  exact (Htr eq_refl).
Defined.
